(** * Web viewer sample: session lifecycle controller and remote-application
      event dispatcher

    Shallow embedding of the two React components of the viewer:

    - [Controller]: the component of [src/App.tsx], which creates a streaming
      session, polls until it is ready, resolves its routes and tears it down;
    - [Window]: the component rendered by the controller, which talks to the
      streamed Kit application through custom events.

    Both components are event driven.  An [async] method is cut at every
    [await] of a backend call: the part before the [await] runs when the
    method is invoked, the part after it runs when the call settles, and in
    between the suspended method sits in the machine as a pending task.
    [setState] is modelled as an immediate merge into [this.state]. *)

From Stdlib Require Import String Ascii List ZArith Bool Lia DecimalString.
Import ListNotations.
Open Scope string_scope.
Open Scope Z_scope.

(** ** Values of the host language *)

Module Js.

(** Data as [JSON.parse] and the streaming library deliver it, typed [any]
    in the source.  Of a number the program sees two things only, whether it
    is falsy (a zero or NaN) and the text [String] makes of it, so a number
    is kept as these two; only the two zeros have both in common. *)
#[warnings="-register-all"]
Inductive value : Type :=
| undefined
| null
| boolean (b : bool)
| number (zero_or_NaN : bool) (text : string)
| str (s : string)
| array (elements : list value)
| object (fields : list (string * value)).

Inductive error : Type :=
| TypeError
| SyntaxError
| Other (message : string).

(** How an evaluation ends: with a value, or with a thrown exception (for a
    promise: fulfilled or rejected). *)
Inductive completion (A : Type) : Type :=
| Normal (a : A)
| Throw (e : error).
Arguments Normal {A} a.
Arguments Throw {A} e.

(** [!v] is [negb (truthy v)]. *)
Definition truthy (v : value) : bool :=
  match v with
  | undefined | null => false
  | boolean b => b
  | number zero_or_NaN _ => negb zero_or_NaN
  | str s => negb (s =? "")%string
  | array _ | object _ => true
  end.

(** The fields of an object are kept in a list; keys of a well-formed object
    are distinct. *)
Fixpoint lookup (k : string) (fields : list (string * value)) : value :=
  match fields with
  | [] => undefined
  | (k', v) :: rest => if (k' =? k)%string then v else lookup k rest
  end.

(** [v.k] for a data property [k]: a TypeError on [undefined] and [null],
    [undefined] on a primitive or an array (prototype members such as
    [length] are not modelled, the program reads none). *)
Definition prop (v : value) (k : string) : completion value :=
  match v with
  | undefined | null => Throw TypeError
  | object fields => Normal (lookup k fields)
  | boolean _ | number _ _ | str _ | array _ => Normal undefined
  end.

(** An object has an own property [k]. *)
Fixpoint has_key (k : string) (fields : list (string * value)) : bool :=
  match fields with
  | [] => false
  | (k', _) :: rest => (k' =? k)%string || has_key k rest
  end.

(** [String(v)], which is also what [==] and [+] make of an array or an
    object before they go on.  An array joins its elements with commas,
    writing nothing for [undefined] and [null].  A plain object is
    [[object Object]], unless it has an own property [toString]: no value of
    this type can be called, so that property is passed over, [valueOf]
    gives no primitive either, and the conversion throws a TypeError. *)
Fixpoint toString (v : value) : completion string :=
  match v with
  | undefined => Normal "undefined"
  | null => Normal "null"
  | boolean true => Normal "true"
  | boolean false => Normal "false"
  | number _ text => Normal text
  | str s => Normal s
  | array elements =>
      (fix join (l : list value) : completion string :=
         match l with
         | [] => Normal ""
         | x :: rest =>
             match
               match x with
               | undefined | null => Normal ""
               | _ => toString x
               end
             with
             | Throw e => Throw e
             | Normal sx =>
                 match rest with
                 | [] => Normal sx
                 | _ :: _ =>
                     match join rest with
                     | Throw e => Throw e
                     | Normal sr => Normal (sx ++ "," ++ sr)
                     end
                 end
             end
         end) elements
  | object fields =>
      if has_key "toString" fields then Throw TypeError
      else Normal "[object Object]"
  end.

(** [v === s] for a string [s]. *)
Definition strict_eq_str (v : value) (s : string) : bool :=
  match v with
  | str t => (t =? s)%string
  | _ => false
  end.

(** [v == s] for a string [s] that is not the text of a number: a string
    compares as with [===]; an array or an object is converted first, which
    may throw, and its text compared; [undefined], [null], booleans and
    numbers are never equal to [s]. *)
Definition loose_eq_str (v : value) (s : string) : completion bool :=
  match v with
  | str t => Normal (t =? s)%string
  | array _ | object _ =>
      match toString v with
      | Normal t => Normal (t =? s)%string
      | Throw e => Throw e
      end
  | undefined | null | boolean _ | number _ _ => Normal false
  end.

(** The decimal digits of an integer. *)
Definition string_of_Z (n : Z) : string := NilZero.string_of_int (Z.to_int n).

End Js.

Import Js (Normal, Throw).

(** ** Static configuration

    [stream.config.json] is read by both components; only these three entries
    are used. *)
Record StreamConfigT : Type := {
  source : string;
  stream_streamServer : string;
  stream_appServer : string
}.

Definition dquote : string := String "034"%char EmptyString.

(** The list without its [k]-th element. *)
Fixpoint remove_nth {A} (k : nat) (l : list A) : list A :=
  match k, l with
  | _, [] => []
  | O, _ :: rest => rest
  | S k', x :: rest => x :: remove_nth k' rest
  end.

(** ** The window component: dispatcher of events of the streamed application *)

Module Window.

Record AppState : Type := {
  isKitReady : bool;
  showStream : bool;
  showUI : bool;
  isLoading : bool;
  loadingText : string
}.

Definition set_isKitReady (b : bool) (s : AppState) : AppState :=
  {| isKitReady := b; showStream := showStream s; showUI := showUI s;
     isLoading := isLoading s; loadingText := loadingText s |}.

Definition set_loading (text : string) (b : bool) (s : AppState) : AppState :=
  {| isKitReady := isKitReady s; showStream := showStream s;
     showUI := showUI s; isLoading := b; loadingText := text |}.

(** Functions handed to [setTimeout]. *)
Inductive Callback : Type :=
| cb_pollForKitReady.

(** What a method does to the outside. *)
Inductive Effect : Type :=
| console_info (msg : string)
| console_log (msg : string)
| console_log_value (v : Js.value)
| console_error (msg : string)
| AppStream_sendMessage (msg : string)
| setTimeout (cb : Callback) (ms : Z)
| uncaught (e : Js.error).

(** A method body: reads and writes [this.state], performs effects in
    order, and returns or throws. *)
Definition M (A : Type) : Type :=
  AppState -> Js.completion A * AppState * list Effect.

Definition ret {A} (a : A) : M A := fun s => (Normal a, s, []).

Definition bind {A B} (m : M A) (f : A -> M B) : M B :=
  fun s =>
    match m s with
    | (Normal a, s1, e1) =>
        let '(r, s2, e2) := f a s1 in (r, s2, (e1 ++ e2)%list)
    | (Throw e, s1, e1) => (Throw e, s1, e1)
    end.

Definition emit (e : Effect) : M unit := fun s => (Normal tt, s, [e]).
Definition getState : M AppState := fun s => (Normal s, s, []).
Definition setState (f : AppState -> AppState) : M unit :=
  fun s => (Normal tt, f s, []).
Definition lift {A} (c : Js.completion A) : M A := fun s => (c, s, []).

Declare Scope window_scope.
Delimit Scope window_scope with window.
Notation "x <- m ;; k" := (bind m (fun x => k))
  (at level 61, m at next level, right associativity) : window_scope.
Notation "m ;; k" := (bind m (fun _ => k))
  (at level 61, right associativity) : window_scope.
Local Open Scope window_scope.

(** [JSON.stringify({ event_type: "loadingStateQuery", payload: {} })] *)
Definition loadingStateQuery_message : string :=
  "{" ++ dquote ++ "event_type" ++ dquote ++ ":"
      ++ dquote ++ "loadingStateQuery" ++ dquote ++ ","
      ++ dquote ++ "payload" ++ dquote ++ ":{}}".

Definition _queryLoadingState : M unit :=
  emit (AppStream_sendMessage loadingStateQuery_message).

Definition _pollForKitReady : M unit :=
  s <- getState ;;
  if isKitReady s then ret tt
  else
    emit (console_info "polling Kit availability") ;;
    _queryLoadingState ;;
    emit (setTimeout cb_pollForKitReady 3000).

Definition _onStreamStarted : M unit := _pollForKitReady.

Definition _handleAppStreamFocus : M unit :=
  emit (console_log "User is interacting in streamed viewer").

Definition _handleAppStreamBlur : M unit :=
  emit (console_log "User is not interacting in streamed viewer").

Section Dispatcher.

Variable StreamConfig : StreamConfigT.

(** The built-in [JSON.parse], on the text of its argument. *)
Variable JSON_parse : string -> Js.completion Js.value.

(** The state the constructor sets. *)
Definition initialState : AppState :=
  {| isKitReady := false;
     showStream := true;
     showUI := false;
     loadingText :=
       if (source StreamConfig =? "gfn")%string
       then "Log in to GeForce NOW to view stream"
       else if (source StreamConfig =? "stream")%string
            then "Waiting for stream to initialize"
            else "Waiting for stream to begin";
     isLoading := (source StreamConfig =? "stream")%string |}.

Definition _onLoggedIn (userId : string) : M unit :=
  if (source StreamConfig =? "gfn")%string then
    emit (console_info ("Logged in to GeForce NOW as " ++ userId)) ;;
    setState (set_loading "Waiting for stream to begin" false)
  else ret tt.

(** The last statement of [_handleCustomEvent], outside its chain of
    [else if]. *)
Definition log_kit_message (event : Js.value) : M unit :=
  messageRecipient <- lift (Js.prop event "messageRecipient") ;;
  if Js.strict_eq_str messageRecipient "kit" then
    emit (console_log "onCustomEvent") ;;
    data <- lift (Js.prop event "data") ;;
    text <- lift (Js.toString data) ;;
    parsed <- lift (JSON_parse text) ;;
    inner <- lift (Js.prop parsed "event_type") ;;
    emit (console_log_value inner)
  else ret tt.

Definition _handleCustomEvent (event : Js.value) : M unit :=
  if negb (Js.truthy event) then ret tt
  else
    event_type <- lift (Js.prop event "event_type") ;;
    (if Js.strict_eq_str event_type "openedStageResult" then
       payload <- lift (Js.prop event "payload") ;;
       result <- lift (Js.prop payload "result") ;;
       if Js.strict_eq_str result "success" then _queryLoadingState
       else
         url <- lift (Js.prop payload "url") ;;
         text <- lift (Js.toString url) ;;
         emit (console_error
                 ("Kit App communicates there was an error loading: "
                    ++ text))
     else
       (* the [==] of the second test may throw *)
       is_response <-
         lift (Js.loose_eq_str event_type "loadingStateResponse") ;;
       if is_response then
         s <- getState ;;
         if negb (isKitReady s) then
           emit (console_info "Kit is ready to load assets") ;;
           setState (set_isKitReady true) ;;
           _queryLoadingState
         else ret tt
       else if Js.strict_eq_str event_type "updateProgressAmount" then
         emit (console_log "Kit App communicates progress amount.")
       else if Js.strict_eq_str event_type "updateProgressActivity" then
         emit (console_log "Kit App communicates progress activity.") ;;
         s <- getState ;;
         if negb (loadingText s =? "Loading Asset...")%string then
           setState (set_loading "Loading Asset..." true)
         else ret tt
       else ret tt) ;;
    log_kit_message event.

(** *** The component in its event loop *)

Record Machine : Type := {
  app : AppState;
  now : Z;                               (* milliseconds *)
  timers : list (Z * Callback);          (* due time, callback *)
  trace : list (Z * Effect)              (* effects so far, oldest first *)
}.

Definition boot : Machine :=
  {| app := initialState; now := 0; timers := []; trace := [] |}.

Fixpoint scheduled (t : Z) (effs : list Effect) : list (Z * Callback) :=
  match effs with
  | [] => []
  | setTimeout cb ms :: rest => (t + ms, cb) :: scheduled t rest
  | _ :: rest => scheduled t rest
  end.

Definition escaped (r : Js.completion unit) : list Effect :=
  match r with
  | Normal _ => []
  | Throw e => [uncaught e]
  end.

(** Run a method to completion at the current time. *)
Definition exec (c : M unit) (m : Machine) : Machine :=
  let '(r, s, effs) := c (app m) in
  {| app := s;
     now := now m;
     timers := (timers m ++ scheduled (now m) effs)%list;
     trace := (trace m ++ map (pair (now m)) (effs ++ escaped r))%list |}.

Definition run_callback (cb : Callback) : M unit :=
  match cb with
  | cb_pollForKitReady => _pollForKitReady
  end.

(** What the streaming library, the timers and the clock do to the
    component. *)
Inductive Input : Type :=
| onStarted
| onFocus
| onBlur
| onLoggedIn (userId : string)
| handleCustomEvent (event : Js.value)
| timeout (k : nat)        (* the k-th pending timer fires *)
| elapse (dt : Z).

Definition step (i : Input) (m : Machine) : option Machine :=
  match i with
  | onStarted => Some (exec _onStreamStarted m)
  | onFocus => Some (exec _handleAppStreamFocus m)
  | onBlur => Some (exec _handleAppStreamBlur m)
  | onLoggedIn userId => Some (exec (_onLoggedIn userId) m)
  | handleCustomEvent event => Some (exec (_handleCustomEvent event) m)
  | timeout k =>
      match nth_error (timers m) k with
      | Some (due, cb) =>
          if forallb (fun t => due <=? fst t) (timers m) then
            Some (exec (run_callback cb)
                    {| app := app m;
                       now := Z.max (now m) due;
                       timers := remove_nth k (timers m);
                       trace := trace m |})
          else None
      | None => None
      end
  | elapse dt =>
      if 0 <=? dt then
        Some {| app := app m; now := now m + dt;
                timers := timers m; trace := trace m |}
      else None
  end.

Fixpoint run (inputs : list Input) (m : Machine) : option Machine :=
  match inputs with
  | [] => Some m
  | i :: rest =>
      match step i m with
      | Some m' => run rest m'
      | None => None
      end
  end.

(** The messages sent to the streamed application, with their times. *)
Fixpoint sent (tr : list (Z * Effect)) : list (Z * string) :=
  match tr with
  | [] => []
  | (t, AppStream_sendMessage msg) :: rest => (t, msg) :: sent rest
  | _ :: rest => sent rest
  end.

End Dispatcher.

(** *** Observations on events and effects *)

(** The event is an object whose [event_type] is the string [tag]. *)
Definition has_event_type (tag : string) (event : Js.value) : bool :=
  match Js.prop event "event_type" with
  | Normal t => Js.strict_eq_str t tag
  | Throw _ => false
  end.

(** The four comparisons of [_handleCustomEvent], in its order: whether one
    of them succeeds, unless the second one throws. *)
Definition recognized (event_type : Js.value) : Js.completion bool :=
  if Js.strict_eq_str event_type "openedStageResult" then Normal true
  else
    match Js.loose_eq_str event_type "loadingStateResponse" with
    | Throw e => Throw e
    | Normal true => Normal true
    | Normal false =>
        Normal (Js.strict_eq_str event_type "updateProgressAmount"
                || Js.strict_eq_str event_type "updateProgressActivity")
    end.

(** None of the comparisons succeeds. *)
Definition unrecognized (event : Js.value) : bool :=
  match Js.prop event "event_type" with
  | Normal t =>
      match recognized t with
      | Normal b => negb b
      | Throw _ => true
      end
  | Throw _ => true
  end.

(** The comparisons can all be made: the second one does not throw. *)
Definition comparable (event : Js.value) : bool :=
  match Js.prop event "event_type" with
  | Normal t =>
      match recognized t with
      | Normal _ => true
      | Throw _ => false
      end
  | Throw _ => false
  end.

Definition is_console (e : Effect) : bool :=
  match e with
  | console_info _ | console_log _ | console_log_value _
  | console_error _ => true
  | AppStream_sendMessage _ | setTimeout _ _ | uncaught _ => false
  end.

(** The messages among the effects of one method. *)
Fixpoint outbound (effs : list Effect) : list string :=
  match effs with
  | [] => []
  | AppStream_sendMessage msg :: rest => msg :: outbound rest
  | _ :: rest => outbound rest
  end.

(** The [k]-th query of a poll that started at [t0]. *)
Definition query_at (t0 : Z) (k : nat) : Z * string :=
  (t0 + 3000 * Z.of_nat k, loadingStateQuery_message).

(** The events for which the last statement of [_handleCustomEvent] runs to
    its end: [messageRecipient] is not ["kit"], or [data] has a text and it
    is the JSON text of a value other than [null]. *)
Definition kit_log_returns (JSON_parse : string -> Js.completion Js.value)
    (event : Js.value) : bool :=
  match Js.prop event "messageRecipient" with
  | Normal r =>
      if Js.strict_eq_str r "kit" then
        match Js.prop event "data" with
        | Normal d =>
            match Js.toString d with
            | Normal text =>
                match JSON_parse text with
                | Normal parsed =>
                    match Js.prop parsed "event_type" with
                    | Normal _ => true
                    | Throw _ => false
                    end
                | Throw _ => false
                end
            | Throw _ => false
            end
        | Throw _ => false
        end
      else true
  | Throw _ => false
  end.

(** How often the transport reports that the stream started. *)
Definition count_started (inputs : list Input) : nat :=
  length (filter (fun i => match i with onStarted => true | _ => false end)
            inputs).

End Window.

(** ** The controller component: lifecycle of a streaming session *)

Module StreamStatus.
Inductive t : Type := IDLE | INITIALIZING | INITIALIZED.
End StreamStatus.

Module Forms.
Inductive t : Type :=
| IDLE | AppOnly | StreamURLs | Applications | Versions | Profiles
| Stream | StreamOnly.
End Forms.

Module Controller.

(** *** Results of the backend client

    The module [./Endpoints] declares these types; they are read off the
    way [src/App.tsx] uses them.  The hosts of [routes] are listed in the
    order of [Object.keys]. *)
Record Route : Type := {
  description : string;
  source_port : Z
}.

Record StreamItem : Type := {
  id : string;
  routes : list (string * list Route)
}.

Record Response : Type := {
  status : Z;
  data : StreamItem
}.

Record DestroyResponse : Type := {
  detail : option string
}.

(** The calls to the backend client, with their arguments. *)
Inductive BackendCall : Type :=
| createStreamingSession (streamServer appId version profile : string)
| getStreamingSessionInfo (streamServer sessionId : string)
| destroyStreamingSession (streamServer sessionId : string).

(** The places where an [async] method waits for a backend call. *)
Inductive Continuation : Type :=
| in_startStream (appId version profile : string)
| in_pollForSessionReady (sessionId : string)
| in_endStream_info (sessionId : string)      (* first await of _endStream *)
| in_endStream_destroy (sessionId : string).  (* second await of _endStream *)

Inductive Callback : Type :=
| cb_pollForSessionReady (sessionId : string).

Inductive Effect : Type :=
| console_log (msg : string)
| console_info (msg : string)
| console_info_item (label : string) (item : StreamItem)
| console_error (msg : string)
| console_error_with (label : string) (e : Js.error)
| alert (msg : string)
| await (c : BackendCall) (k : Continuation)
| setTimeout (cb : Callback) (ms : Z)
| AppStreamer_terminate
| uncaught (e : Js.error).

(** What the backend answers to a pending call. *)
Inductive Reply : Type :=
| session_reply (r : Js.completion Response)
| destroy_reply (r : Js.completion DestroyResponse).

Inductive Task : Type :=
| awaiting (c : BackendCall) (k : Continuation)
| timer (due : Z) (cb : Callback).

Section Lifecycle.

(** The element type of [applications], declared in [./Forms]. *)
Context {Application : Type}.

Variable StreamConfig : StreamConfigT.

(** [new Date(t).toLocaleTimeString()], which depends on the locale. *)
Variable toLocaleTimeString : Z -> string.

(** [String(n)] for a number [n], as a template literal writes it. *)
Variable Number_toString : Z -> string.

Record AppState : Type := {
  currentForm : Forms.t;
  useWebUI : bool;
  streamServer : string;
  appServer : string;
  applications : list Application;
  applicationVersions : list string;
  applicationProfiles : list string;
  selectedApplicationId : string;
  selectedApplicationVersion : string;
  selectedApplicationProfile : string;
  streamStatus : StreamStatus.t;
  connectionText : string;
  backendUrl : string;
  signalingserver : string;
  signalingport : Z;
  mediaserver : string;
  mediaport : Z;
  accessToken : string;
  sessionId : string
}.

(** The state of the constructor and of [_resetState]. *)
Definition initialState : AppState :=
  {| currentForm := Forms.AppOnly;
     useWebUI := true;
     streamServer := stream_streamServer StreamConfig;
     appServer := stream_appServer StreamConfig;
     applications := [];
     applicationVersions := [];
     applicationProfiles := [];
     selectedApplicationId := "";
     selectedApplicationVersion := "";
     selectedApplicationProfile := "";
     streamStatus := StreamStatus.IDLE;
     connectionText := "";
     backendUrl := "";
     signalingserver := "";
     signalingport := 0;
     mediaserver := "";
     mediaport := 0;
     accessToken := "";
     sessionId := "" |}.

(** The partial states the methods pass to [setState]. *)
Definition leaving_form (profile : string) (s : AppState) : AppState :=
  {| currentForm := Forms.IDLE;
     useWebUI := useWebUI s;
     streamServer := streamServer s;
     appServer := appServer s;
     applications := applications s;
     applicationVersions := applicationVersions s;
     applicationProfiles := applicationProfiles s;
     selectedApplicationId := selectedApplicationId s;
     selectedApplicationVersion := selectedApplicationVersion s;
     selectedApplicationProfile := profile;
     streamStatus := streamStatus s;
     connectionText := connectionText s;
     backendUrl := backendUrl s;
     signalingserver := signalingserver s;
     signalingport := signalingport s;
     mediaserver := mediaserver s;
     mediaport := mediaport s;
     accessToken := accessToken s;
     sessionId := sessionId s |}.

Definition set_connectionText (text : string) (s : AppState) : AppState :=
  {| currentForm := currentForm s;
     useWebUI := useWebUI s;
     streamServer := streamServer s;
     appServer := appServer s;
     applications := applications s;
     applicationVersions := applicationVersions s;
     applicationProfiles := applicationProfiles s;
     selectedApplicationId := selectedApplicationId s;
     selectedApplicationVersion := selectedApplicationVersion s;
     selectedApplicationProfile := selectedApplicationProfile s;
     streamStatus := streamStatus s;
     connectionText := text;
     backendUrl := backendUrl s;
     signalingserver := signalingserver s;
     signalingport := signalingport s;
     mediaserver := mediaserver s;
     mediaport := mediaport s;
     accessToken := accessToken s;
     sessionId := sessionId s |}.

Definition initializing (newId : string) (s : AppState) : AppState :=
  {| currentForm := currentForm s;
     useWebUI := useWebUI s;
     streamServer := streamServer s;
     appServer := appServer s;
     applications := applications s;
     applicationVersions := applicationVersions s;
     applicationProfiles := applicationProfiles s;
     selectedApplicationId := selectedApplicationId s;
     selectedApplicationVersion := selectedApplicationVersion s;
     selectedApplicationProfile := selectedApplicationProfile s;
     streamStatus := StreamStatus.INITIALIZING;
     connectionText := "Attempting to load stream...";
     backendUrl := backendUrl s;
     signalingserver := signalingserver s;
     signalingport := signalingport s;
     mediaserver := mediaserver s;
     mediaport := mediaport s;
     accessToken := accessToken s;
     sessionId := newId |}.

Definition streaming (newId serverIP : string) (signaling media : Route)
    (s : AppState) : AppState :=
  {| currentForm := Forms.Stream;
     useWebUI := useWebUI s;
     streamServer := streamServer s;
     appServer := appServer s;
     applications := applications s;
     applicationVersions := applicationVersions s;
     applicationProfiles := applicationProfiles s;
     selectedApplicationId := selectedApplicationId s;
     selectedApplicationVersion := selectedApplicationVersion s;
     selectedApplicationProfile := selectedApplicationProfile s;
     streamStatus := StreamStatus.INITIALIZED;
     connectionText := connectionText s;
     backendUrl := streamServer s ++ "/streaming/stream";
     signalingserver := serverIP;
     signalingport := source_port signaling;
     mediaserver := serverIP;
     mediaport := source_port media;
     accessToken := "";
     sessionId := newId |}.

(** A method body, from its invocation or resumption to its next [await]
    or its end: it reads the clock, reads and writes [this.state],
    performs effects in order, and returns or throws. *)
Definition M (A : Type) : Type :=
  Z -> AppState -> Js.completion A * AppState * list Effect.

Definition ret {A} (a : A) : M A := fun _ s => (Normal a, s, []).

Definition bind {A B} (m : M A) (f : A -> M B) : M B :=
  fun t s =>
    match m t s with
    | (Normal a, s1, e1) =>
        let '(r, s2, e2) := f a t s1 in (r, s2, (e1 ++ e2)%list)
    | (Throw e, s1, e1) => (Throw e, s1, e1)
    end.

(** [try { body } catch (error) { handler }]: what the body did before it
    threw stays done. *)
Definition try_catch (body : M unit) (handler : Js.error -> M unit)
    : M unit :=
  fun t s =>
    match body t s with
    | (Normal a, s1, e1) => (Normal a, s1, e1)
    | (Throw e, s1, e1) =>
        let '(r, s2, e2) := handler e t s1 in (r, s2, (e1 ++ e2)%list)
    end.

Definition emit (e : Effect) : M unit := fun _ s => (Normal tt, s, [e]).
Definition getState : M AppState := fun _ s => (Normal s, s, []).
Definition setState (f : AppState -> AppState) : M unit :=
  fun _ s => (Normal tt, f s, []).
Definition clock : M Z := fun t s => (Normal t, s, []).
Definition lift {A} (c : Js.completion A) : M A := fun _ s => (c, s, []).

Declare Scope controller_scope.
Notation "x <- m ;; k" := (bind m (fun x => k))
  (at level 61, m at next level, right associativity) : controller_scope.
Notation "m ;; k" := (bind m (fun _ => k))
  (at level 61, right associativity) : controller_scope.
Local Open Scope controller_scope.

Definition _resetState : M unit := setState (fun _ => initialState).

Definition has_description (tag : string) (item : Route) : bool :=
  (description item =? tag)%string.

Definition setupStream (createdStream : StreamItem) : M unit :=
  emit (console_info_item "createdStream" createdStream) ;;
  let sessionId := id createdStream in
  match routes createdStream with
  | [] =>
      (* Object.keys(...)[0] is undefined, so is routes[undefined], and
         reading its .routes throws *)
      lift (Throw Js.TypeError)
  | (serverIP, routeData) :: _ =>
      let signalingData := find (has_description "signaling") routeData in
      let mediaData := find (has_description "media") routeData in
      match signalingData, mediaData with
      | Some signalingData, Some mediaData =>
          setState (streaming sessionId serverIP signalingData mediaData)
      | _, _ => emit (console_error "Signaling or media data is missing")
      end
  end.

(** [pollForSessionReady] up to its [await]. *)
Definition pollForSessionReady (sessionId : string) : M unit :=
  emit (console_info "polling for session") ;;
  s <- getState ;;
  emit (await (getStreamingSessionInfo (streamServer s) sessionId)
          (in_pollForSessionReady sessionId)).

(** [pollForSessionReady] from its [await] on. *)
Definition pollForSessionReady_resumed (sessionId : string)
    (settled : Js.completion Response) : M unit :=
  try_catch
    (response <- lift settled ;;
     if status response =? 200 then
       emit (console_info "Session is ready. Waiting before setup...") ;;
       emit (console_info "Delay complete. Setting up stream...") ;;
       setupStream (data response)
     else
       emit (setTimeout (cb_pollForSessionReady sessionId) 10000) ;;
       t <- clock ;;
       emit (console_log
               ("Waiting for session " ++ sessionId
                  ++ " to be ready... Last checked at "
                  ++ toLocaleTimeString t)))
    (fun error =>
       emit (console_error_with "Error polling session info:" error)).

(** The text [_startStream] logs and shows when the session is not
    created. *)
Definition failure_message (appId version : string) (code : Z) : string :=
  "Failed to create a new streaming session for " ++ appId ++ " "
    ++ version ++ ". Error code " ++ Number_toString code.

(** [_startStream] up to its [await]. *)
Definition _startStream (appId version profile : string) : M unit :=
  setState (leaving_form profile) ;;
  emit (console_log
          ("Creating Session for " ++ appId ++ " " ++ version
             ++ ". Errors are expected as the stream updates.")) ;;
  setState (set_connectionText
              "Attempting to create streaming session...") ;;
  s <- getState ;;
  emit (await (createStreamingSession (streamServer s) appId version profile)
          (in_startStream appId version profile)).

(** [_startStream] from its [await] on. *)
Definition _startStream_resumed (appId version profile : string)
    (settled : Js.completion Response) : M unit :=
  createdStreamResponse <- lift settled ;;
  if status createdStreamResponse >? 400 then
    emit (console_log
            (failure_message appId version (status createdStreamResponse))) ;;
    emit (alert
            (failure_message appId version (status createdStreamResponse))) ;;
    _resetState
  else
    setState (initializing (id (data createdStreamResponse))) ;;
    if status createdStreamResponse =? 202 then
      pollForSessionReady (id (data createdStreamResponse))
    else setupStream (data createdStreamResponse).

(** [_resetStream] after its [await this._endStream()]. *)
Definition _resetStream_resumed : M unit :=
  _resetState ;;
  emit AppStreamer_terminate.

(** [_resetStream], inside [_endStream] up to its first [await]; when
    [_endStream] returns at once, [_resetStream] goes on. *)
Definition _resetStream : M unit :=
  s <- getState ;;
  let sessionId := sessionId s in
  if (sessionId =? "")%string then _resetStream_resumed
  else
    emit (await (getStreamingSessionInfo (streamServer s) sessionId)
            (in_endStream_info sessionId)).

(** [_endStream] between its two [await]s; a rejected call rejects
    [_endStream] and with it [_resetStream]. *)
Definition _endStream_info_resumed (sessionId : string)
    (settled : Js.completion Response) : M unit :=
  response <- lift settled ;;
  if negb (status response =? 200) then _resetStream_resumed
  else
    s <- getState ;;
    emit (await (destroyStreamingSession (streamServer s) sessionId)
            (in_endStream_destroy sessionId)).

(** [_endStream] from its second [await] on, then the rest of
    [_resetStream]. *)
Definition _endStream_destroy_resumed (sessionId : string)
    (settled : Js.completion DestroyResponse) : M unit :=
  destroyResponse <- lift settled ;;
  match detail destroyResponse with
  | Some text => emit (alert text)
  | None =>
      emit (console_info
              ("Streaming Session " ++ sessionId ++ " Destroyed"))
  end ;;
  _resetStream_resumed.

(** *** The component in its event loop *)

Record Machine : Type := {
  app : AppState;
  now : Z;                          (* milliseconds *)
  pending : list Task;              (* suspended methods and timers *)
  trace : list (Z * Effect)         (* effects so far, oldest first *)
}.

Definition boot : Machine :=
  {| app := initialState; now := 0; pending := []; trace := [] |}.

Fixpoint spawned (t : Z) (effs : list Effect) : list Task :=
  match effs with
  | [] => []
  | await c k :: rest => awaiting c k :: spawned t rest
  | setTimeout cb ms :: rest => timer (t + ms) cb :: spawned t rest
  | _ :: rest => spawned t rest
  end.

(** An exception that leaves an [async] method rejects its promise, which
    nobody handles. *)
Definition escaped (r : Js.completion unit) : list Effect :=
  match r with
  | Normal _ => []
  | Throw e => [uncaught e]
  end.

Definition exec (c : M unit) (m : Machine) : Machine :=
  let '(r, s, effs) := c (now m) (app m) in
  {| app := s;
     now := now m;
     pending := (pending m ++ spawned (now m) effs)%list;
     trace := (trace m ++ map (pair (now m)) (effs ++ escaped r))%list |}.

Definition resume (k : Continuation) (reply : Reply) : option (M unit) :=
  match k, reply with
  | in_startStream appId version profile, session_reply r =>
      Some (_startStream_resumed appId version profile r)
  | in_pollForSessionReady sessionId, session_reply r =>
      Some (pollForSessionReady_resumed sessionId r)
  | in_endStream_info sessionId, session_reply r =>
      Some (_endStream_info_resumed sessionId r)
  | in_endStream_destroy sessionId, destroy_reply r =>
      Some (_endStream_destroy_resumed sessionId r)
  | _, _ => None
  end.

Definition run_callback (cb : Callback) : M unit :=
  match cb with
  | cb_pollForSessionReady sessionId => pollForSessionReady sessionId
  end.

Definition without (k : nat) (m : Machine) : Machine :=
  {| app := app m; now := now m;
     pending := remove_nth k (pending m); trace := trace m |}.

Definition at_time (t : Z) (m : Machine) : Machine :=
  {| app := app m; now := t; pending := pending m; trace := trace m |}.

Definition due_not_after (due : Z) (t : Task) : bool :=
  match t with
  | timer due' _ => due <=? due'
  | awaiting _ _ => true
  end.

(** What the user, the backend, the timers and the clock do to the
    component. *)
Inductive Input : Type :=
| startStream (appId version profile : string)
| onStreamFailed                     (* the bound [_resetStream] *)
| settle (k : nat) (reply : Reply)   (* the k-th pending call settles *)
| timeout (k : nat)                  (* the k-th pending task, a timer, fires *)
| elapse (dt : Z).

Definition step (i : Input) (m : Machine) : option Machine :=
  match i with
  | startStream appId version profile =>
      Some (exec (_startStream appId version profile) m)
  | onStreamFailed => Some (exec _resetStream m)
  | settle k reply =>
      match nth_error (pending m) k with
      | Some (awaiting _ cont) =>
          match resume cont reply with
          | Some c => Some (exec c (without k m))
          | None => None
          end
      | _ => None
      end
  | timeout k =>
      match nth_error (pending m) k with
      | Some (timer due cb) =>
          if forallb (due_not_after due) (pending m) then
            Some (exec (run_callback cb)
                    (at_time (Z.max (now m) due) (without k m)))
          else None
      | _ => None
      end
  | elapse dt =>
      if 0 <=? dt then Some (at_time (now m + dt) m) else None
  end.

Fixpoint run (inputs : list Input) (m : Machine) : option Machine :=
  match inputs with
  | [] => Some m
  | i :: rest =>
      match step i m with
      | Some m' => run rest m'
      | None => None
      end
  end.

(** *** Observations on a trace *)

Definition is_alert (e : Z * Effect) : bool :=
  match snd e with alert _ => true | _ => false end.

(** [setupStream] logs its argument first of all; nothing else logs an
    item. *)
Definition is_setupStream (e : Z * Effect) : bool :=
  match snd e with console_info_item _ _ => true | _ => false end.

Definition is_backend_call (e : Z * Effect) : bool :=
  match snd e with await _ _ => true | _ => false end.

Definition is_uncaught (e : Z * Effect) : bool :=
  match snd e with uncaught _ => true | _ => false end.

Definition count (p : Z * Effect -> bool) (tr : list (Z * Effect)) : nat :=
  length (filter p tr).

Definition is_info_query (e : Z * Effect) : bool :=
  match snd e with
  | await (getStreamingSessionInfo _ _) _ => true
  | _ => false
  end.

Definition is_destroy (e : Z * Effect) : bool :=
  match snd e with
  | await (destroyStreamingSession _ _) _ => true
  | _ => false
  end.

Definition is_terminate (e : Z * Effect) : bool :=
  match snd e with AppStreamer_terminate => true | _ => false end.

(** *** Scenarios *)

(** Polling while the session is not ready: each answer is followed by
    the retry it scheduled.  The poll is the only pending task. *)
Definition retries (answers : list Response) : list Input :=
  flat_map (fun r => [settle 0 (session_reply (Normal r)); timeout 0])
    answers.

(** The ways one run of [_resetStream] goes when the backend answers. *)
Inductive Teardown : Type :=
| no_session
| session_unknown (info : Response)
| session_destroyed (info : Response) (destroyed : DestroyResponse).

(** Which way it goes is decided by the session id held and by the status
    of the session info. *)
Definition fits (s : AppState) (o : Teardown) : Prop :=
  match o with
  | no_session => sessionId s = ""
  | session_unknown info => sessionId s <> "" /\ status info <> 200
  | session_destroyed info _ => sessionId s <> "" /\ status info = 200
  end.

(** The inputs of that run when [k] tasks are pending before it: the
    calls of [_endStream] are then the [k]-th pending task. *)
Definition teardown (k : nat) (o : Teardown) : list Input :=
  match o with
  | no_session => [onStreamFailed]
  | session_unknown info =>
      [onStreamFailed; settle k (session_reply (Normal info))]
  | session_destroyed info destroyed =>
      [onStreamFailed;
       settle k (session_reply (Normal info));
       settle k (destroy_reply (Normal destroyed))]
  end.

(** What that run does, in order, from the state [s]. *)
Definition teardown_effects (s : AppState) (o : Teardown) : list Effect :=
  match o with
  | no_session => [AppStreamer_terminate]
  | session_unknown _ =>
      [await (getStreamingSessionInfo (streamServer s) (sessionId s))
         (in_endStream_info (sessionId s));
       AppStreamer_terminate]
  | session_destroyed _ destroyed =>
      [await (getStreamingSessionInfo (streamServer s) (sessionId s))
         (in_endStream_info (sessionId s));
       await (destroyStreamingSession (streamServer s) (sessionId s))
         (in_endStream_destroy (sessionId s));
       match detail destroyed with
       | Some text => alert text
       | None =>
           console_info
             ("Streaming Session " ++ sessionId s ++ " Destroyed")
       end;
       AppStreamer_terminate]
  end.

(** The controller waits for the answer to a poll of session [sid] and
    for nothing else. *)
Definition polling (sid : string) (m : Machine) : Prop :=
  exists c, pending m = [awaiting c (in_pollForSessionReady sid)].

(** *** What stays as configured *)

Definition server_of (c : BackendCall) : string :=
  match c with
  | createStreamingSession server _ _ _ => server
  | getStreamingSessionInfo server _ => server
  | destroyStreamingSession server _ => server
  end.

(** The fields no method writes except to put back what the constructor
    put there, and the two servers of the stream, which are written
    together. *)
Definition as_configured (s : AppState) : Prop :=
  useWebUI s = true
  /\ streamServer s = stream_streamServer StreamConfig
  /\ appServer s = stream_appServer StreamConfig
  /\ applications s = []
  /\ applicationVersions s = []
  /\ applicationProfiles s = []
  /\ selectedApplicationId s = ""
  /\ selectedApplicationVersion s = ""
  /\ accessToken s = ""
  /\ signalingserver s = mediaserver s
  /\ (backendUrl s = ""
      \/ backendUrl s = stream_streamServer StreamConfig ++ "/streaming/stream").

Definition calls_configured (effs : list Effect) : Prop :=
  forall c k,
    In (await c k) effs -> server_of c = stream_streamServer StreamConfig.

(** A method keeps the configuration when it takes a configured state to a
    configured state and calls the configured server only. *)
Definition keeps_configuration (c : M unit) : Prop :=
  forall t s r s' effs,
    c t s = (r, s', effs) ->
    as_configured s ->
    as_configured s' /\ calls_configured effs.

End Lifecycle.

End Controller.

(** ** Sample inputs *)

Module Sample.

Definition config : StreamConfigT :=
  {| source := "stream";
     stream_streamServer := "https://stream.example";
     stream_appServer := "https://app.example" |}.

(** [JSON.parse] on the three literal texts; any other text is rejected.
    The samples below only present it with text that is no JSON at all. *)
Definition JSON_parse_literals (text : string) : Js.completion Js.value :=
  if (text =? "null")%string then Normal Js.null
  else if (text =? "true")%string then Normal (Js.boolean true)
  else if (text =? "false")%string then Normal (Js.boolean false)
  else Throw Js.SyntaxError.

(** A clock that prints the milliseconds. *)
Definition toLocaleTimeString (t : Z) : string := Js.string_of_Z t.

(** [String] on the status codes of the samples, which are small integers:
    their decimal digits. *)
Definition Number_toString (n : Z) : string := Js.string_of_Z n.

(** *** Events of the streamed application *)

Definition response : Js.value :=
  Js.object
    [("event_type", Js.str "loadingStateResponse");
     ("payload", Js.object [("loading_state", Js.str "idle")])].

Definition failure : Js.value :=
  Js.object
    [("url", Js.str "omniverse://assets/stage.usd");
     ("result", Js.str "error");
     ("error", Js.str "File not found")].

Definition stage_failed : Js.value :=
  Js.object
    [("event_type", Js.str "openedStageResult"); ("payload", failure)].

(** An event of a kind the handler does not know, addressed to Kit and
    without [data]. *)
Definition selection_changed : Js.value :=
  Js.object
    [("event_type", Js.str "stageSelectionChanged");
     ("payload", Js.object [("prims", Js.array [])]);
     ("messageRecipient", Js.str "kit")].

(** An event whose type is an object with a property [toString], which
    [==] cannot convert to a primitive. *)
Definition inconvertible_type : Js.value :=
  Js.object
    [("event_type", Js.object [("toString", Js.number true "0")])].

Definition window : Window.Machine := Window.boot config.

(** *** Sessions *)

Definition signaling_route : Controller.Route :=
  {| Controller.description := "signaling";
     Controller.source_port := 31001 |}.

Definition media_route : Controller.Route :=
  {| Controller.description := "media"; Controller.source_port := 31000 |}.

Definition session : Controller.StreamItem :=
  {| Controller.id := "session-1";
     Controller.routes := [("10.0.0.7", [media_route; signaling_route])] |}.

(** The same session before its routes are known. *)
Definition session_pending : Controller.StreamItem :=
  {| Controller.id := "session-1"; Controller.routes := [] |}.

(** A session whose only route is the media route. *)
Definition session_without_signaling : Controller.StreamItem :=
  {| Controller.id := "session-2";
     Controller.routes := [("10.0.0.8", [media_route])] |}.

Definition accepted : Controller.Response :=
  {| Controller.status := 202; Controller.data := session_pending |}.

Definition ready : Controller.Response :=
  {| Controller.status := 200; Controller.data := session |}.

Definition bad_request : Controller.Response :=
  {| Controller.status := 400; Controller.data := session_pending |}.

(** The backend destroys the session and has something to say. *)
Definition refused : Controller.DestroyResponse :=
  {| Controller.detail := Some "Session is not active" |}.

Definition Application : Type := unit.

Definition controller : @Controller.Machine Application :=
  Controller.boot config.

(** The controller while it streams [session]. *)
Definition streaming : @Controller.Machine Application :=
  {| Controller.app :=
       Controller.streaming "session-1" "10.0.0.7" signaling_route
         media_route
         (Controller.initializing "session-1"
            (Controller.initialState config));
     Controller.now := 60000;
     Controller.pending := [];
     Controller.trace := [] |}.

(** The controller while it waits for the next poll of [session]. *)
Definition waiting : @Controller.Machine Application :=
  {| Controller.app :=
       Controller.initializing "session-1" (Controller.initialState config);
     Controller.now := 2000;
     Controller.pending :=
       [Controller.timer 10000 (Controller.cb_pollForSessionReady "session-1")];
     Controller.trace := [] |}.

(** A session is created, answers that it is not ready, and is given up
    while the retry is pending; the backend does not report it ready, so
    nothing is destroyed.  Then the retry fires and gets the same answer. *)
Definition cancelled_while_polling : list Controller.Input :=
  [Controller.startStream "usd-viewer" "106.1.0" "default";
   Controller.elapse 400;
   Controller.settle 0 (Controller.session_reply (Normal accepted));
   Controller.elapse 250;
   Controller.settle 0 (Controller.session_reply (Normal accepted));
   Controller.elapse 2350;
   Controller.onStreamFailed;
   Controller.elapse 200;
   Controller.settle 1 (Controller.session_reply (Normal accepted));
   Controller.timeout 0;
   Controller.elapse 150;
   Controller.settle 0 (Controller.session_reply (Normal accepted))].

(** *** More events *)

Definition stage_opened : Js.value :=
  Js.object
    [("event_type", Js.str "openedStageResult");
     ("payload",
      Js.object
        [("url", Js.str "omniverse://assets/stage.usd");
         ("result", Js.str "success");
         ("error", Js.str "")])].

(** The same kind of event with nothing in it. *)
Definition stage_without_payload : Js.value :=
  Js.object [("event_type", Js.str "openedStageResult")].

Definition activity : Js.value :=
  Js.object
    [("event_type", Js.str "updateProgressActivity");
     ("payload", Js.object [("text", Js.str "Loading stage.usd")])].

(** A response whose type comes wrapped in an array. *)
Definition response_in_array : Js.value :=
  Js.object
    [("event_type", Js.array [Js.str "loadingStateResponse"]);
     ("payload", Js.object [("loading_state", Js.str "idle")])].

(** The window where it ends up after the inputs. *)
Definition window_after (inputs : list Window.Input) (m : Window.Machine)
    : Window.Machine :=
  match Window.run config JSON_parse_literals inputs m with
  | Some m' => m'
  | None => m
  end.

(** The stream starts and Kit answers the first query. *)
Definition window_ready : Window.Machine :=
  window_after [Window.onStarted; Window.handleCustomEvent response] window.

(** What goes on afterwards: the pending retry, a stage that opens, a login,
    progress, focus, and the stream reported started once more. *)
Definition viewing : list Window.Input :=
  [Window.timeout 0;
   Window.handleCustomEvent stage_opened;
   Window.elapse 1200;
   Window.onLoggedIn "user-7";
   Window.handleCustomEvent activity;
   Window.onFocus;
   Window.handleCustomEvent response;
   Window.onStarted;
   Window.onBlur].

(** *** More answers of the backend *)

Definition created : Controller.Response :=
  {| Controller.status := 201; Controller.data := session |}.

Definition server_error : Controller.Response :=
  {| Controller.status := 500; Controller.data := session_pending |}.

Definition ready_without_hosts : Controller.Response :=
  {| Controller.status := 200; Controller.data := session_pending |}.

Definition ready_without_signaling : Controller.Response :=
  {| Controller.status := 200;
     Controller.data := session_without_signaling |}.

Definition destroyed : Controller.DestroyResponse :=
  {| Controller.detail := None |}.

Definition network_error : Js.error := Js.Other "Failed to fetch".

(** The controller while the answer to a poll of [session] is awaited. *)
Definition asking : @Controller.Machine Application :=
  {| Controller.app :=
       Controller.initializing "session-1" (Controller.initialState config);
     Controller.now := 12000;
     Controller.pending :=
       [Controller.awaiting
          (Controller.getStreamingSessionInfo "https://stream.example"
             "session-1")
          (Controller.in_pollForSessionReady "session-1")];
     Controller.trace := [] |}.

Definition controller_after (inputs : list Controller.Input)
    (m : @Controller.Machine Application) : @Controller.Machine Application :=
  match Controller.run config toLocaleTimeString Number_toString inputs m with
  | Some m' => m'
  | None => m
  end.

End Sample.

(** * Properties of the window component *)

Module WindowSpec.

Import Window.
Local Open Scope list_scope.

Section Dispatcher.

Variable StreamConfig : StreamConfigT.
Variable JSON_parse : string -> Js.completion Js.value.

Local Abbreviation handle := (_handleCustomEvent JSON_parse).
Local Abbreviation step := (step StreamConfig JSON_parse).
Local Abbreviation run := (run StreamConfig JSON_parse).

Ltac unfold_M :=
  unfold bind, lift, emit, ret, getState, setState, _queryLoadingState.

Lemma Forall_prefix {A} (P : A -> Prop) n l :
  Forall P l -> Forall P (firstn n l).
Proof.
  intros H. rewrite <- (firstn_skipn n l) in H.
  apply Forall_app in H. tauto.
Qed.

(** **** Bookkeeping of effects *)

Lemma sent_app tr1 tr2 : sent (tr1 ++ tr2)%list = (sent tr1 ++ sent tr2)%list.
Proof.
  induction tr1 as [|[t e] tr1 IH]; simpl; [reflexivity|].
  destruct e; simpl; rewrite ?IH; reflexivity.
Qed.

Lemma sent_stamped t effs :
  sent (map (pair t) effs) = map (pair t) (outbound effs).
Proof.
  induction effs as [|e effs IH]; simpl; [reflexivity|].
  destruct e; simpl; rewrite ?IH; reflexivity.
Qed.

Lemma outbound_app e1 e2 :
  outbound (e1 ++ e2)%list = (outbound e1 ++ outbound e2)%list.
Proof.
  induction e1 as [|e e1 IH]; simpl; [reflexivity|].
  destruct e; simpl; rewrite ?IH; reflexivity.
Qed.

Lemma scheduled_app t e1 e2 :
  scheduled t (e1 ++ e2)%list = (scheduled t e1 ++ scheduled t e2)%list.
Proof.
  induction e1 as [|e e1 IH]; simpl; [reflexivity|].
  destruct e; simpl; rewrite ?IH; reflexivity.
Qed.

Lemma console_outbound effs :
  forallb is_console effs = true -> outbound effs = [].
Proof.
  induction effs as [|e effs IH]; simpl; [reflexivity|].
  destruct e; simpl; intros H; try discriminate; auto.
Qed.

Lemma console_scheduled t effs :
  forallb is_console effs = true -> scheduled t effs = [].
Proof.
  induction effs as [|e effs IH]; simpl; [reflexivity|].
  destruct e; simpl; intros H; try discriminate; auto.
Qed.

Lemma outbound_escaped r : outbound (escaped r) = [].
Proof. destruct r; reflexivity. Qed.

(** What [exec] does with the result of a method. *)
Lemma dispatch_result c m r s effs :
  c (app m) = (r, s, effs) ->
  app (exec c m) = s
  /\ now (exec c m) = now m
  /\ timers (exec c m) = (timers m ++ scheduled (now m) effs)%list
  /\ sent (trace (exec c m))
     = (sent (trace m) ++ map (pair (now m)) (outbound effs))%list.
Proof.
  intros H. unfold exec. rewrite H. simpl.
  repeat split.
  rewrite sent_app, sent_stamped, outbound_app, outbound_escaped.
  rewrite app_nil_r. reflexivity.
Qed.

(** **** The last statement of the handler *)

Lemma log_kit_message_spec event s :
  exists r effs,
    log_kit_message JSON_parse event s = (r, s, effs)
    /\ forallb is_console effs = true
    /\ (r = Normal tt <-> kit_log_returns JSON_parse event = true).
Proof.
  unfold log_kit_message, kit_log_returns. unfold_M.
  destruct (Js.prop event "messageRecipient") as [recipient|e]; simpl.
  2:{ do 2 eexists. repeat split; try reflexivity; discriminate. }
  destruct (Js.strict_eq_str recipient "kit"); simpl.
  2:{ do 2 eexists. repeat split; reflexivity. }
  destruct (Js.prop event "data") as [d|e]; simpl.
  2:{ do 2 eexists. repeat split; try reflexivity; discriminate. }
  destruct (Js.toString d) as [text|e]; simpl.
  2:{ do 2 eexists. repeat split; try reflexivity; discriminate. }
  destruct (JSON_parse text) as [parsed|e]; simpl.
  2:{ do 2 eexists. repeat split; try reflexivity; discriminate. }
  destruct (Js.prop parsed "event_type") as [inner|e]; simpl.
  2:{ do 2 eexists. repeat split; try reflexivity; discriminate. }
  do 2 eexists. repeat split; reflexivity.
Qed.

Lemma has_event_type_prop tag event :
  has_event_type tag event = true ->
  Js.truthy event = true
  /\ exists t, Js.prop event "event_type" = Normal (Js.str t)
               /\ (t =? tag)%string = true.
Proof.
  unfold has_event_type.
  destruct event; simpl; try discriminate.
  destruct (Js.lookup "event_type" fields) eqn:E; simpl; try discriminate.
  intros H. split; [reflexivity|]. eexists. split; [reflexivity|exact H].
Qed.

Lemma prop_defined v k x k' :
  Js.prop v k = Normal x -> exists y, Js.prop v k' = Normal y.
Proof. destruct v; simpl; intros H; try discriminate; eexists; reflexivity. Qed.

(** **** Single events *)

Lemma loadingStateResponse_first event s :
  has_event_type "loadingStateResponse" event = true ->
  isKitReady s = false ->
  exists r rest,
    handle event s
    = (r, set_isKitReady true s,
       console_info "Kit is ready to load assets"
         :: AppStream_sendMessage loadingStateQuery_message :: rest)
    /\ forallb is_console rest = true.
Proof.
  intros H Hready.
  destruct (has_event_type_prop _ _ H) as (Htruthy & t & Hprop & Ht).
  apply String.eqb_eq in Ht. subst t.
  destruct (log_kit_message_spec event (set_isKitReady true s))
    as (r & effs & Hlog & Hconsole & _).
  unfold _handleCustomEvent. rewrite Htruthy. unfold_M.
  rewrite Hprop. simpl. rewrite Hready. simpl. rewrite Hlog.
  exists r, effs. split; [reflexivity|exact Hconsole].
Qed.

Lemma loadingStateResponse_later event s :
  has_event_type "loadingStateResponse" event = true ->
  isKitReady s = true ->
  exists r effs,
    handle event s = (r, s, effs) /\ forallb is_console effs = true.
Proof.
  intros H Hready.
  destruct (has_event_type_prop _ _ H) as (Htruthy & t & Hprop & Ht).
  apply String.eqb_eq in Ht. subst t.
  destruct (log_kit_message_spec event s)
    as (r & effs & Hlog & Hconsole & _).
  unfold _handleCustomEvent. rewrite Htruthy. unfold_M.
  rewrite Hprop. simpl. rewrite Hready. simpl. rewrite Hlog.
  exists r, effs. split; [reflexivity|exact Hconsole].
Qed.

(** Once Kit is ready, responses change neither the state nor the timers
    and send nothing. *)
Lemma responses_when_ready events : forall m,
  Forall (fun event => has_event_type "loadingStateResponse" event = true)
    events ->
  isKitReady (app m) = true ->
  exists m',
    run (map handleCustomEvent events) m = Some m'
    /\ app m' = app m
    /\ timers m' = timers m
    /\ sent (trace m') = sent (trace m).
Proof.
  induction events as [|event events IH]; intros m Hall Hready; simpl.
  - exists m. repeat split.
  - inversion Hall as [|? ? Hev Hrest]; subst.
    destruct (loadingStateResponse_later event (app m) Hev Hready)
      as (r & effs & Hrun & Hconsole).
    destruct (dispatch_result _ m _ _ _ Hrun) as (Happ & _ & Htimers & Hsent).
    rewrite (console_outbound _ Hconsole) in Hsent.
    rewrite (console_scheduled _ _ Hconsole) in Htimers.
    simpl in Hsent. rewrite app_nil_r in Hsent, Htimers.
    destruct (IH (exec (handle event) m) Hrest) as (m' & Hm' & A & B & C).
    { rewrite Happ. exact Hready. }
    exists m'. split; [exact Hm'|].
    rewrite A, B, C, Happ, Htimers, Hsent. repeat split.
Qed.

(** **** The proof-of-life poll *)

Lemma _pollForKitReady_waiting s :
  isKitReady s = false ->
  _pollForKitReady s
  = (Normal tt, s,
     [console_info "polling Kit availability";
      AppStream_sendMessage loadingStateQuery_message;
      setTimeout cb_pollForKitReady 3000]).
Proof. intros H. unfold _pollForKitReady. unfold_M. rewrite H. reflexivity. Qed.

Lemma _pollForKitReady_done s :
  isKitReady s = true -> _pollForKitReady s = (Normal tt, s, []).
Proof. intros H. unfold _pollForKitReady. unfold_M. rewrite H. reflexivity. Qed.

Lemma kit_poll_round m :
  isKitReady (app m) = false ->
  timers m = [(now m + 3000, cb_pollForKitReady)] ->
  exists m',
    step (timeout 0) m = Some m'
    /\ app m' = app m
    /\ now m' = now m + 3000
    /\ timers m' = [(now m' + 3000, cb_pollForKitReady)]
    /\ sent (trace m')
       = (sent (trace m) ++ [(now m + 3000, loadingStateQuery_message)])%list.
Proof.
  intros Hready Htimers. unfold Window.step. rewrite Htimers. simpl.
  rewrite Z.leb_refl. simpl.
  eexists. split; [reflexivity|].
  unfold exec. simpl. rewrite (_pollForKitReady_waiting _ Hready). simpl.
  replace (Z.max (now m) (now m + 3000)) with (now m + 3000) by lia.
  repeat split. rewrite sent_app. reflexivity.
Qed.

Lemma kit_poll_rounds n : forall m,
  isKitReady (app m) = false ->
  timers m = [(now m + 3000, cb_pollForKitReady)] ->
  exists m',
    run (repeat (timeout 0) n) m = Some m'
    /\ app m' = app m
    /\ now m' = now m + 3000 * Z.of_nat n
    /\ timers m' = [(now m' + 3000, cb_pollForKitReady)]
    /\ sent (trace m')
       = (sent (trace m) ++ map (query_at (now m)) (seq 1 n))%list.
Proof.
  induction n as [|n IH]; intros m Hready Htimers.
  - exists m. simpl. rewrite app_nil_r. repeat split; auto. lia.
  - destruct (kit_poll_round m Hready Htimers) as (m1 & Hstep & A1 & N1 & T1 & S1).
    destruct (IH m1) as (m' & Hrun & A & N & T & S').
    { rewrite A1. exact Hready. }
    { exact T1. }
    exists m'. cbn [repeat Window.run]. rewrite Hstep.
    split; [exact Hrun|]. split; [congruence|]. split; [lia|].
    split; [exact T|].
    rewrite S', S1, <- app_assoc. f_equal.
    change (seq 1 (S n)) with (1%nat :: seq 2 n). cbn [map Datatypes.app].
    replace (now m + 3000, loadingStateQuery_message)
      with (query_at (now m) 1)
      by (unfold query_at; apply pair_equal_spec; split; [lia|reflexivity]).
    apply f_equal.
    rewrite <- (seq_shift n 1), map_map. apply map_ext. intros k.
    unfold query_at.
    apply pair_equal_spec. split; [lia|reflexivity].
Qed.

(** **** The claims *)

(** C7: of a sequence of [loadingStateResponse] events, the first one that
    arrives while [isKitReady] is false sets it to true and sends exactly
    one [loadingStateQuery]; one that arrives while [isKitReady] is true
    changes nothing and sends nothing; and after the first one, all the
    responses that follow leave the state alone, with [isKitReady] true
    after each of them, and send nothing. *)
Theorem loadingStateResponse_kitReady_once event events m :
  has_event_type "loadingStateResponse" event = true ->
  Forall (fun e => has_event_type "loadingStateResponse" e = true) events ->
  exists m1,
    step (handleCustomEvent event) m = Some m1
    /\ (isKitReady (app m) = false ->
        app m1 = set_isKitReady true (app m)
        /\ sent (trace m1)
           = (sent (trace m) ++ [(now m, loadingStateQuery_message)])%list)
    /\ (isKitReady (app m) = true ->
        app m1 = app m /\ sent (trace m1) = sent (trace m))
    /\ timers m1 = timers m
    /\ forall n, exists mn,
         run (map handleCustomEvent (firstn n events)) m1 = Some mn
         /\ isKitReady (app mn) = true
         /\ app mn = app m1
         /\ timers mn = timers m1
         /\ sent (trace mn) = sent (trace m1).
Proof.
  intros Hev Hall.
  exists (exec (handle event) m). split; [reflexivity|].
  assert (Hfirst :
    isKitReady (app m) = false ->
    app (exec (handle event) m) = set_isKitReady true (app m)
    /\ sent (trace (exec (handle event) m))
       = (sent (trace m) ++ [(now m, loadingStateQuery_message)])%list
    /\ timers (exec (handle event) m) = timers m).
  { intros Hready.
    destruct (loadingStateResponse_first event (app m) Hev Hready)
      as (r & rest & Hrun & Hconsole).
    destruct (dispatch_result _ m _ _ _ Hrun) as (A & _ & T & S).
    cbn [outbound scheduled] in S, T.
    rewrite (console_outbound _ Hconsole) in S.
    rewrite (console_scheduled _ _ Hconsole), app_nil_r in T.
    repeat split; assumption. }
  assert (Hlater :
    isKitReady (app m) = true ->
    app (exec (handle event) m) = app m
    /\ sent (trace (exec (handle event) m)) = sent (trace m)
    /\ timers (exec (handle event) m) = timers m).
  { intros Hready.
    destruct (loadingStateResponse_later event (app m) Hev Hready)
      as (r & effs & Hrun & Hconsole).
    destruct (dispatch_result _ m _ _ _ Hrun) as (A & _ & T & S).
    rewrite (console_outbound _ Hconsole) in S.
    rewrite (console_scheduled _ _ Hconsole) in T.
    cbn [map] in S. rewrite app_nil_r in S, T.
    repeat split; assumption. }
  assert (Hnow : isKitReady (app (exec (handle event) m)) = true).
  { destruct (isKitReady (app m)) eqn:Hready.
    - destruct (Hlater eq_refl) as (A & _). rewrite A. exact Hready.
    - destruct (Hfirst eq_refl) as (A & _). rewrite A. reflexivity. }
  split; [intros H; destruct (Hfirst H) as (A & S & _); split; assumption|].
  split; [intros H; destruct (Hlater H) as (A & S & _); split; assumption|].
  split.
  { destruct (isKitReady (app m)) eqn:Hready.
    - apply Hlater; reflexivity.
    - apply Hfirst; reflexivity. }
  intros n.
  destruct (responses_when_ready (firstn n events)
              (exec (handle event) m)) as (mn & Hrun & A & T & S).
  { apply Forall_prefix. exact Hall. }
  { exact Hnow. }
  exists mn. split; [exact Hrun|]. split; [rewrite A; exact Hnow|].
  repeat split; assumption.
Qed.

(** C8: an [openedStageResult] event whose [payload.result] is not
    ["success"] is answered by one [console.error] that names the url,
    provided the url has a text; when [String] throws on the url, the
    handler throws before it has done anything.  Either way nothing happens
    apart from console output: no message is sent (so no
    [loadingStateQuery]), no timer is set, and the state of the component,
    [isKitReady], [loadingText] and [isLoading] included, is what it was. *)
Theorem openedStageResult_failure_only_reported event payload result s :
  has_event_type "openedStageResult" event = true ->
  Js.prop event "payload" = Normal payload ->
  Js.prop payload "result" = Normal result ->
  Js.strict_eq_str result "success" = false ->
  exists r url effs,
    Js.prop payload "url" = Normal url
    /\ handle event s = (r, s, effs)
    /\ forallb is_console effs = true
    /\ outbound effs = []
    /\ (forall t, scheduled t effs = [])
    /\ match Js.toString url with
       | Normal text =>
           exists rest,
             effs
             = console_error
                 ("Kit App communicates there was an error loading: "
                    ++ text)%string :: rest
       | Throw e => r = Throw e /\ effs = []
       end.
Proof.
  intros Hev Hpayload Hresult Hfailed.
  destruct (has_event_type_prop _ _ Hev) as (Htruthy & t & Hprop & Ht).
  apply String.eqb_eq in Ht. subst t.
  destruct (prop_defined _ _ _ "url" Hresult) as (url & Hurl).
  destruct (log_kit_message_spec event s)
    as (r & tail & Hlog & Hconsole & _).
  destruct (Js.toString url) as [text|e] eqn:Htext.
  - exists r, url, (console_error
                     ("Kit App communicates there was an error loading: "
                        ++ text)%string :: tail).
    split; [exact Hurl|].
    split.
    { unfold _handleCustomEvent. rewrite Htruthy. unfold_M.
      rewrite Hprop. simpl.
      rewrite Hpayload, Hresult, Hfailed, Hurl, Htext, Hlog. reflexivity. }
    cbn [forallb is_console outbound scheduled andb].
    split; [exact Hconsole|].
    split; [apply console_outbound; exact Hconsole|].
    split; [intros t; apply console_scheduled; exact Hconsole|].
    rewrite Htext. exists tail. reflexivity.
  - exists (Throw e), url, [].
    split; [exact Hurl|].
    split.
    { unfold _handleCustomEvent. rewrite Htruthy. unfold_M.
      rewrite Hprop. simpl.
      rewrite Hpayload, Hresult, Hfailed, Hurl, Htext. reflexivity. }
    rewrite Htext. repeat split.
Qed.

(** C9, amended: an event whose [event_type] passes none of the four
    comparisons of the handler changes no state and causes console output
    at most, so no message is sent and no timer is set.  The handler
    returns without throwing exactly when the event is falsy, or else when
    both the comparisons can be made (the [==] does not throw on the event
    type) and the last statement runs to its end: [messageRecipient] is not
    ["kit"], or [data] has a text that [JSON.parse] accepts, yielding a
    value of which a property can be read. *)
Theorem unrecognized_event_changes_nothing event s :
  unrecognized event = true ->
  exists r effs,
    handle event s = (r, s, effs)
    /\ forallb is_console effs = true
    /\ outbound effs = []
    /\ (forall t, scheduled t effs = [])
    /\ (r = Normal tt <->
        Js.truthy event = false
        \/ (comparable event = true
            /\ kit_log_returns JSON_parse event = true)).
Proof.
  intros Hun. unfold _handleCustomEvent.
  destruct (Js.truthy event) eqn:Htruthy; cbn [negb].
  2:{ exists (Normal tt), []. unfold_M. repeat split; auto. }
  unfold unrecognized, comparable in *.
  destruct (Js.prop event "event_type") as [t|e] eqn:Hprop.
  2:{ destruct event; simpl in Hprop, Htruthy; discriminate. }
  unfold recognized in *. unfold_M.
  destruct (Js.strict_eq_str t "openedStageResult"); [discriminate|].
  destruct (Js.loose_eq_str t "loadingStateResponse") as [[|]|e];
    [discriminate| |].
  - (* the comparisons are made and fail *)
    apply negb_true_iff, orb_false_iff in Hun. destruct Hun as (Ha & Hb).
    rewrite Ha, Hb. simpl.
    destruct (log_kit_message_spec event s)
      as (r & effs & Hlog & Hconsole & Hreturns).
    rewrite Hlog. exists r, effs.
    split; [reflexivity|]. split; [exact Hconsole|].
    split; [apply console_outbound; exact Hconsole|].
    split; [intros t0; apply console_scheduled; exact Hconsole|].
    rewrite Hreturns. split; [auto|].
    intros [H|(_ & H)]; [discriminate|exact H].
  - (* the second comparison throws *)
    simpl. exists (Throw e), [].
    split; [reflexivity|]. split; [reflexivity|]. split; [reflexivity|].
    split; [reflexivity|].
    split; [discriminate|].
    intros [H|(H & _)]; discriminate.
Qed.

(** C10: when the transport reports that the stream started while Kit is
    not ready, a [loadingStateQuery] is sent at once and a retry is set
    3000 ms ahead; as long as [isKitReady] stays false every retry sends
    one more query and sets the next retry, so after [n] retries [n + 1]
    queries went out, 3000 ms apart, and one retry is pending, for any
    [n].  After the first [loadingStateResponse] has set [isKitReady],
    the pending retry sends nothing and sets no timer; and in any state
    with [isKitReady] true [_pollForKitReady] does nothing at all. *)
Theorem proof_of_life_poll m n event :
  isKitReady (app m) = false ->
  timers m = [] ->
  has_event_type "loadingStateResponse" event = true ->
  exists m1 m2 m3,
    run (onStarted :: repeat (timeout 0) n) m = Some m1
    /\ app m1 = app m
    /\ sent (trace m1)
       = (sent (trace m) ++ map (query_at (now m)) (seq 0 (S n)))%list
    /\ timers m1
       = [(now m + 3000 * Z.of_nat (S n), cb_pollForKitReady)]
    /\ step (handleCustomEvent event) m1 = Some m2
    /\ isKitReady (app m2) = true
    /\ timers m2 = timers m1
    /\ step (timeout 0) m2 = Some m3
    /\ app m3 = app m2
    /\ timers m3 = []
    /\ trace m3 = trace m2
    /\ forall s, isKitReady s = true ->
         _pollForKitReady s = (Normal tt, s, []).
Proof.
  intros Hready Htimers Hev.
  (* the stream starts *)
  pose (m0 := exec _onStreamStarted m).
  assert (H0 : app m0 = app m /\ now m0 = now m
               /\ timers m0 = [(now m0 + 3000, cb_pollForKitReady)]
               /\ sent (trace m0)
                  = (sent (trace m) ++ [query_at (now m) 0])%list).
  { unfold m0, exec, _onStreamStarted.
    rewrite (_pollForKitReady_waiting _ Hready). simpl.
    rewrite Htimers, sent_app. simpl. unfold query_at.
    replace (now m + 3000 * Z.of_nat 0) with (now m) by lia.
    repeat split. }
  destruct H0 as (A0 & N0 & T0 & S0).
  (* n retries *)
  destruct (kit_poll_rounds n m0) as (m1 & Hrun & A1 & N1 & T1 & S1).
  { rewrite A0. exact Hready. }
  { exact T0. }
  (* the first response *)
  assert (Hready1 : isKitReady (app m1) = false).
  { rewrite A1, A0. exact Hready. }
  destruct (loadingStateResponse_first event (app m1) Hev Hready1)
    as (r & rest & Hhandle & Hconsole).
  destruct (dispatch_result _ m1 _ _ _ Hhandle) as (A2 & _ & T2 & _).
  cbn [scheduled] in T2.
  rewrite (console_scheduled _ _ Hconsole), app_nil_r in T2.
  assert (Hstep2 : step (handleCustomEvent event) m1
                   = Some (exec (handle event) m1)) by reflexivity.
  set (m2 := exec (handle event) m1) in *.
  exists m1, m2.
  eexists. 
  split. { cbn [Window.run Window.step]. exact Hrun. }
  split. { congruence. }
  split. { rewrite S1, S0, <- app_assoc. f_equal.
           change (seq 0 (S n)) with (0%nat :: seq 1 n). cbn [map Datatypes.app].
           rewrite N0. reflexivity. }
  split. { replace (now m + 3000 * Z.of_nat (S n)) with (now m1 + 3000) by lia.
           exact T1. }
  split. { exact Hstep2. }
  split. { rewrite A2. reflexivity. }
  split. { exact T2. }
  unfold Window.step. rewrite T2, T1. simpl. rewrite Z.leb_refl. simpl.
  split. { reflexivity. }
  unfold exec. simpl.
  rewrite _pollForKitReady_done by (rewrite A2; reflexivity).
  simpl. rewrite app_nil_r.
  repeat split. exact _pollForKitReady_done.
Qed.

(** **** What any event can do *)

Ltac unfold_M_in H :=
  unfold bind, lift, emit, ret, getState, setState, _queryLoadingState in H.

Lemma then_log_kit_message (c : M unit) event s r1 s1 e1 :
  c s = (r1, s1, e1) ->
  exists r tail,
    bind c (fun _ => log_kit_message JSON_parse event) s
    = (r, s1, e1 ++ tail)
    /\ forallb is_console tail = true.
Proof.
  intros Hc. unfold bind. rewrite Hc. destruct r1 as [[]|e].
  - destruct (log_kit_message_spec event s1) as (r & tail & Hlog & Hconsole & _).
    rewrite Hlog. exists r, tail. split; [reflexivity|exact Hconsole].
  - exists (Throw e), []. rewrite app_nil_r. split; reflexivity.
Qed.

Lemma handler_outcome event s :
  exists r s' effs,
    handle event s = (r, s', effs)
    /\ (s' = s
        \/ (isKitReady s = false /\ s' = set_isKitReady true s)
        \/ s' = set_loading "Loading Asset..." true s)
    /\ (outbound effs = [] \/ outbound effs = [loadingStateQuery_message])
    /\ forall t, scheduled t effs = [].
Proof.
  unfold _handleCustomEvent.
  destruct (Js.truthy event) eqn:Htruthy; cbn [negb].
  2:{ exists (Normal tt), s, []. unfold_M. repeat split; auto. }
  unfold bind at 1, lift at 1.
  destruct (Js.prop event "event_type") as [t|e].
  2:{ exists (Throw e), s, []. repeat split; auto. }
  match goal with
  | |- context [bind ?c (fun _ => log_kit_message JSON_parse event) s] =>
      destruct (c s) as [[r1 s1] e1] eqn:Hchain;
      destruct (then_log_kit_message c event s _ _ _ Hchain)
        as (r & tail & Hrun & Hconsole);
      rewrite Hrun
  end.
  exists r, s1, (e1 ++ tail). cbn [Datatypes.app].
  split; [reflexivity|].
  assert (Hchain' :
    (s1 = s
     \/ (isKitReady s = false /\ s1 = set_isKitReady true s)
     \/ s1 = set_loading "Loading Asset..." true s)
    /\ (outbound e1 = [] \/ outbound e1 = [loadingStateQuery_message])
    /\ forall t, scheduled t e1 = []).
  { unfold_M_in Hchain.
    destruct (Js.strict_eq_str t "openedStageResult").
    { destruct (Js.prop event "payload") as [payload|]; cbn in Hchain;
        [|inversion Hchain; subst; repeat split; auto].
      destruct (Js.prop payload "result") as [result|]; cbn in Hchain;
        [|inversion Hchain; subst; repeat split; auto].
      destruct (Js.strict_eq_str result "success"); cbn in Hchain;
        [inversion Hchain; subst; repeat split; auto|].
      destruct (Js.prop payload "url") as [url|]; cbn in Hchain;
        [|inversion Hchain; subst; repeat split; auto].
      destruct (Js.toString url) as [text|]; cbn in Hchain;
        inversion Hchain; subst; repeat split; auto. }
    destruct (Js.loose_eq_str t "loadingStateResponse") as [[|]|];
      cbn in Hchain.
    3:{ inversion Hchain; subst; repeat split; auto. }
    { destruct (isKitReady s) eqn:Hready; cbn in Hchain;
        inversion Hchain; subst; repeat split; auto. }
    destruct (Js.strict_eq_str t "updateProgressAmount").
    { inversion Hchain; subst; repeat split; auto. }
    destruct (Js.strict_eq_str t "updateProgressActivity").
    { cbn in Hchain.
      destruct (loadingText s =? "Loading Asset...")%string; cbn in Hchain;
        inversion Hchain; subst; repeat split; auto. }
    inversion Hchain; subst; repeat split; auto. }
  destruct Hchain' as (Hstate & Hout & Hsched).
  split; [exact Hstate|].
  rewrite outbound_app, (console_outbound _ Hconsole), app_nil_r.
  split; [exact Hout|].
  intros t'. rewrite scheduled_app, Hsched, (console_scheduled _ _ Hconsole).
  reflexivity.
Qed.

(** **** What any input can do *)

Lemma length_remove_nth {A} (l : list A) : forall k x,
  nth_error l k = Some x -> S (length (remove_nth k l)) = length l.
Proof.
  induction l as [|y l IH]; intros [|k] x H; simpl in *; try discriminate.
  - reflexivity.
  - f_equal. exact (IH k x H).
Qed.

Lemma quiet_outcome (c : M unit) (m : Machine) r s effs :
  c (app m) = (r, s, effs) ->
  forallb is_console effs = true ->
  app (exec c m) = s
  /\ timers (exec c m) = timers m
  /\ sent (trace (exec c m)) = sent (trace m).
Proof.
  intros Hrun Hconsole.
  destruct (dispatch_result _ m _ _ _ Hrun) as (A & _ & T & S).
  rewrite (console_scheduled _ _ Hconsole), app_nil_r in T.
  rewrite (console_outbound _ Hconsole) in S. cbn [map] in S.
  rewrite app_nil_r in S. auto.
Qed.

Lemma poll_outcome (m : Machine) :
  app (exec _pollForKitReady m) = app m
  /\ (length (timers (exec _pollForKitReady m)) <= S (length (timers m)))%nat
  /\ (sent (trace (exec _pollForKitReady m)) = sent (trace m)
      \/ sent (trace (exec _pollForKitReady m))
         = sent (trace m) ++ [(now m, loadingStateQuery_message)]).
Proof.
  destruct (isKitReady (app m)) eqn:Hready.
  - destruct (dispatch_result _ m _ _ _ (_pollForKitReady_done _ Hready))
      as (A & _ & T & S).
    cbn in T, S. rewrite app_nil_r in T, S. rewrite A, T, S.
    split; [reflexivity|]. split; [lia|left; reflexivity].
  - destruct (dispatch_result _ m _ _ _ (_pollForKitReady_waiting _ Hready))
      as (A & _ & T & S).
    cbn in T, S. rewrite A, T, S, length_app. cbn [length].
    split; [reflexivity|]. split; [lia|right; reflexivity].
Qed.

Lemma step_outcome i (m m' : Machine) :
  step i m = Some m' ->
  (app m' = app m
   \/ (isKitReady (app m) = false /\ app m' = set_isKitReady true (app m))
   \/ app m' = set_loading "Loading Asset..." true (app m)
   \/ app m' = set_loading "Waiting for stream to begin" false (app m))
  /\ (exists new,
        sent (trace m') = sent (trace m) ++ new
        /\ (new = [] \/ exists t, new = [(t, loadingStateQuery_message)]))
  /\ (length (timers m')
      <= length (timers m) + count_started [i])%nat.
Proof.
  destruct i as [| | |userId|event|k|dt]; cbn [Window.step]; intros H.
  - (* onStarted *)
    injection H as <-. unfold _onStreamStarted.
    destruct (poll_outcome m) as (A & T & S).
    split; [left; exact A|]. split.
    + destruct S as [S|S]; rewrite S.
      * exists []. rewrite app_nil_r. auto.
      * eexists. split; [reflexivity|]. right. eexists. reflexivity.
    + cbn. lia.
  - (* onFocus *)
    injection H as <-.
    destruct (quiet_outcome _handleAppStreamFocus m _ _ _ eq_refl eq_refl)
      as (A & T & S).
    rewrite A, T, S. split; [left; reflexivity|]. split.
    + exists []. rewrite app_nil_r. auto.
    + lia.
  - (* onBlur *)
    injection H as <-.
    destruct (quiet_outcome _handleAppStreamBlur m _ _ _ eq_refl eq_refl)
      as (A & T & S).
    rewrite A, T, S. split; [left; reflexivity|]. split.
    + exists []. rewrite app_nil_r. auto.
    + lia.
  - (* onLoggedIn *)
    injection H as <-.
    assert (Hlogin :
      exists s' effs,
        _onLoggedIn StreamConfig userId (app m) = (Normal tt, s', effs)
        /\ forallb is_console effs = true
        /\ (s' = app m
            \/ s' = set_loading "Waiting for stream to begin" false (app m))).
    { unfold _onLoggedIn. unfold_M.
      destruct (source StreamConfig =? "gfn")%string; cbn;
        do 2 eexists; (split; [reflexivity|]); split; auto. }
    destruct Hlogin as (s' & effs & Hrun & Hconsole & Hstate).
    destruct (quiet_outcome _ m _ _ _ Hrun Hconsole) as (A & T & S).
    rewrite A, T, S. split; [tauto|]. split.
    + exists []. rewrite app_nil_r. auto.
    + lia.
  - (* handleCustomEvent *)
    injection H as <-.
    destruct (handler_outcome event (app m))
      as (r & s' & effs & Hrun & Hstate & Hout & Hsched).
    destruct (dispatch_result _ m _ _ _ Hrun) as (A & _ & T & S).
    rewrite A, T, S, Hsched, app_nil_r.
    split; [tauto|]. split.
    + destruct Hout as [-> | ->]; cbn [map].
      * exists []. auto.
      * eexists. split; [reflexivity|]. right. eexists. reflexivity.
    + cbn. lia.
  - (* timeout *)
    destruct (nth_error (timers m) k) as [[due cb]|] eqn:Hk; [|discriminate].
    destruct (forallb (fun t => due <=? fst t) (timers m)); [|discriminate].
    injection H as <-. destruct cb. cbn [run_callback].
    match goal with
    | |- context [exec _pollForKitReady ?m0] =>
        destruct (poll_outcome m0) as (A & T & S)
    end.
    cbn [app timers trace now] in A, T, S.
    pose proof (length_remove_nth _ _ _ Hk) as Hlen.
    split; [left; exact A|]. split.
    + destruct S as [S|S]; rewrite S.
      * exists []. rewrite app_nil_r. auto.
      * eexists. split; [reflexivity|]. right. eexists. reflexivity.
    + cbn. lia.
  - (* elapse *)
    destruct (0 <=? dt); [|discriminate]. injection H as <-. cbn.
    split; [left; reflexivity|]. split.
    + exists []. rewrite app_nil_r. auto.
    + lia.
Qed.

(** The flag [isKitReady] is never taken back, and [showStream] and [showUI]
    are never written, whatever the stream, the timers and the user do. *)
Theorem kitReady_is_kept inputs : forall m m' : Machine,
  run inputs m = Some m' ->
  (isKitReady (app m) = true -> isKitReady (app m') = true)
  /\ showStream (app m') = showStream (app m)
  /\ showUI (app m') = showUI (app m).
Proof.
  induction inputs as [|i inputs IH]; intros m m' H; cbn [Window.run] in H.
  - injection H as <-. auto.
  - destruct (step i m) as [m1|] eqn:Hstep; [|discriminate].
    destruct (IH m1 m' H) as (K & S & U).
    destruct (step_outcome i m m1 Hstep) as (Hstate & _).
    rewrite S, U.
    destruct Hstate as [E|[(_ & E)|[E|E]]]; rewrite E in *; cbn;
      repeat split; auto.
Qed.

(** Every message the component ever sends to the streamed application is
    the [loadingStateQuery] with empty payload. *)
Theorem only_loadingStateQuery_is_sent inputs : forall m m' : Machine,
  run inputs m = Some m' ->
  exists new,
    sent (trace m') = sent (trace m) ++ new
    /\ Forall (fun p => snd p = loadingStateQuery_message) new.
Proof.
  induction inputs as [|i inputs IH]; intros m m' H; cbn [Window.run] in H.
  - injection H as <-. exists []. rewrite app_nil_r. auto.
  - destruct (step i m) as [m1|] eqn:Hstep; [|discriminate].
    destruct (IH m1 m' H) as (new' & S' & F').
    destruct (step_outcome i m m1 Hstep) as (_ & (new & S & Hnew) & _).
    exists (new ++ new'). rewrite S', S, app_assoc. split; [reflexivity|].
    apply Forall_app. split; [|exact F'].
    destruct Hnew as [->|(t & ->)]; repeat constructor.
Qed.

(** Timers are only set by the poll: there are never more of them pending
    than there were before plus the times the stream was reported started. *)
Theorem timers_bounded_by_starts inputs : forall m m' : Machine,
  run inputs m = Some m' ->
  (length (timers m') <= length (timers m) + count_started inputs)%nat.
Proof.
  induction inputs as [|i inputs IH]; intros m m' H; cbn [Window.run] in H.
  - injection H as <-. cbn. lia.
  - destruct (step i m) as [m1|] eqn:Hstep; [|discriminate].
    pose proof (IH m1 m' H) as Hrest.
    destruct (step_outcome i m m1 Hstep) as (_ & _ & Hone).
    change (count_started (i :: inputs))
      with (count_started ([i] ++ inputs)).
    unfold count_started in *. rewrite filter_app, length_app. lia.
Qed.

(** One event is answered by at most one message, the [loadingStateQuery],
    and never by a timer. *)
Theorem event_sends_at_most_one_query event (m : Machine) :
  exists m',
    step (handleCustomEvent event) m = Some m'
    /\ timers m' = timers m
    /\ (sent (trace m') = sent (trace m)
        \/ sent (trace m')
           = sent (trace m) ++ [(now m, loadingStateQuery_message)]).
Proof.
  exists (exec (handle event) m). split; [reflexivity|].
  destruct (handler_outcome event (app m))
    as (r & s' & effs & Hrun & _ & Hout & Hsched).
  destruct (dispatch_result _ m _ _ _ Hrun) as (_ & _ & T & S).
  rewrite T, S, Hsched, app_nil_r. split; [reflexivity|].
  destruct Hout as [-> | ->]; cbn [map].
  - left. rewrite app_nil_r. reflexivity.
  - right. reflexivity.
Qed.

(** **** Single events, continued *)

(** The stage was opened: one [loadingStateQuery] is sent and the state is
    left alone. *)
Theorem openedStageResult_success_queries event payload result s :
  has_event_type "openedStageResult" event = true ->
  Js.prop event "payload" = Normal payload ->
  Js.prop payload "result" = Normal result ->
  Js.strict_eq_str result "success" = true ->
  exists r rest,
    handle event s
    = (r, s, AppStream_sendMessage loadingStateQuery_message :: rest)
    /\ forallb is_console rest = true.
Proof.
  intros Hev Hpayload Hresult Hok.
  destruct (has_event_type_prop _ _ Hev) as (Htruthy & t & Hprop & Ht).
  apply String.eqb_eq in Ht. subst t.
  destruct (log_kit_message_spec event s) as (r & rest & Hlog & Hconsole & _).
  exists r, rest. split; [|exact Hconsole].
  unfold _handleCustomEvent. rewrite Htruthy. unfold_M.
  rewrite Hprop. simpl. rewrite Hpayload, Hresult, Hok. simpl.
  rewrite Hlog. reflexivity.
Qed.

(** An [openedStageResult] event without a payload ([undefined] or [null])
    makes the handler throw a TypeError before it reports or sends
    anything. *)
Theorem openedStageResult_without_payload_throws event payload s :
  has_event_type "openedStageResult" event = true ->
  Js.prop event "payload" = Normal payload ->
  payload = Js.undefined \/ payload = Js.null ->
  handle event s = (Throw Js.TypeError, s, []).
Proof.
  intros Hev Hpayload Hnone.
  destruct (has_event_type_prop _ _ Hev) as (Htruthy & t & Hprop & Ht).
  apply String.eqb_eq in Ht. subst t.
  unfold _handleCustomEvent. rewrite Htruthy. unfold_M.
  rewrite Hprop. simpl. rewrite Hpayload.
  destruct Hnone as [-> | ->]; reflexivity.
Qed.

Lemma activity_handled event s :
  has_event_type "updateProgressActivity" event = true ->
  exists r rest,
    handle event s
    = (r,
       (if (loadingText s =? "Loading Asset...")%string then s
        else set_loading "Loading Asset..." true s),
       console_log "Kit App communicates progress activity." :: rest)
    /\ forallb is_console rest = true.
Proof.
  intros Hev.
  destruct (has_event_type_prop _ _ Hev) as (Htruthy & t & Hprop & Ht).
  apply String.eqb_eq in Ht. subst t.
  unfold _handleCustomEvent. rewrite Htruthy. unfold_M.
  rewrite Hprop. simpl.
  destruct (loadingText s =? "Loading Asset...")%string; simpl.
  - destruct (log_kit_message_spec event s) as (r & rest & Hlog & Hc & _).
    rewrite Hlog. exists r, rest. split; [reflexivity|exact Hc].
  - destruct (log_kit_message_spec event
                (set_loading "Loading Asset..." true s))
      as (r & rest & Hlog & Hc & _).
    rewrite Hlog. exists r, rest. split; [reflexivity|exact Hc].
Qed.

(** A progress activity event puts up the text "Loading Asset..." unless it
    is up already, touches nothing but [loadingText] and [isLoading], and
    sends nothing; the same event once more changes nothing. *)
Theorem updateProgressActivity_once event s :
  has_event_type "updateProgressActivity" event = true ->
  exists r1 effs1 s' r2 effs2,
    handle event s = (r1, s', effs1)
    /\ handle event s' = (r2, s', effs2)
    /\ loadingText s' = "Loading Asset..."
    /\ (loadingText s <> "Loading Asset..." -> isLoading s' = true)
    /\ isKitReady s' = isKitReady s
    /\ showStream s' = showStream s
    /\ showUI s' = showUI s
    /\ outbound effs1 = []
    /\ outbound effs2 = [].
Proof.
  intros Hev.
  destruct (activity_handled event s Hev) as (r1 & rest1 & H1 & C1).
  set (s' := if (loadingText s =? "Loading Asset...")%string then s
             else set_loading "Loading Asset..." true s) in *.
  assert (Htext : loadingText s' = "Loading Asset...").
  { unfold s'. destruct (loadingText s =? "Loading Asset...")%string eqn:E.
    - apply String.eqb_eq. exact E.
    - reflexivity. }
  destruct (activity_handled event s' Hev) as (r2 & rest2 & H2 & C2).
  rewrite Htext, String.eqb_refl in H2.
  do 5 eexists.
  split; [exact H1|]. split; [exact H2|]. split; [exact Htext|].
  split.
  { intros Hne. apply String.eqb_neq in Hne. unfold s'. rewrite Hne.
    reflexivity. }
  cbn [outbound]. rewrite (console_outbound _ C1), (console_outbound _ C2).
  unfold s'.
  destruct (loadingText s =? "Loading Asset...")%string; repeat split.
Qed.

(** The comparison with "loadingStateResponse" is the loose one: an event
    type that is only loosely equal to it, such as an array holding that one
    string, is taken for the response as well. *)
Theorem loosely_equal_type_is_a_response event t s :
  Js.truthy event = true ->
  Js.prop event "event_type" = Normal t ->
  Js.loose_eq_str t "loadingStateResponse" = Normal true ->
  isKitReady s = false ->
  exists r rest,
    handle event s
    = (r, set_isKitReady true s,
       console_info "Kit is ready to load assets"
         :: AppStream_sendMessage loadingStateQuery_message :: rest)
    /\ forallb is_console rest = true.
Proof.
  intros Htruthy Hprop Hloose Hready.
  assert (Hstrict : Js.strict_eq_str t "openedStageResult" = false).
  { destruct t; try reflexivity. cbn in Hloose |- *.
    injection Hloose as Hloose.
    apply String.eqb_eq in Hloose. subst s0. reflexivity. }
  destruct (log_kit_message_spec event (set_isKitReady true s))
    as (r & rest & Hlog & Hconsole & _).
  exists r, rest. split; [|exact Hconsole].
  unfold _handleCustomEvent. rewrite Htruthy. unfold_M.
  rewrite Hprop. cbv beta iota. rewrite Hstrict, Hloose. simpl.
  rewrite Hready. simpl. rewrite Hlog. reflexivity.
Qed.

(** **** Reachable states *)

Lemma loading_text_agrees_step i (m m' : Machine) :
  step i m = Some m' ->
  (loadingText (app m) = "Loading Asset..." -> isLoading (app m) = true) ->
  loadingText (app m') = "Loading Asset..." -> isLoading (app m') = true.
Proof.
  intros Hstep Hinv.
  destruct (step_outcome i m m' Hstep) as (Hstate & _).
  destruct Hstate as [E|[(_ & E)|[E|E]]]; rewrite E; cbn; auto.
  discriminate.
Qed.

Lemma loading_text_agrees inputs : forall m m' : Machine,
  run inputs m = Some m' ->
  (loadingText (app m) = "Loading Asset..." -> isLoading (app m) = true) ->
  loadingText (app m') = "Loading Asset..." -> isLoading (app m') = true.
Proof.
  induction inputs as [|i inputs IH]; intros m m' H Hinv; cbn [Window.run] in H.
  - injection H as <-. exact Hinv.
  - destruct (step i m) as [m1|] eqn:Hstep; [|discriminate].
    apply (IH m1 m' H). exact (loading_text_agrees_step i m m1 Hstep Hinv).
Qed.

(** In every state the component reaches from its constructor, a progress
    activity event leaves the text "Loading Asset..." on display with
    [isLoading] set, although the handler only looks at the text. *)
Theorem activity_always_shows_loading inputs event (m : Machine) :
  run inputs (boot StreamConfig) = Some m ->
  has_event_type "updateProgressActivity" event = true ->
  exists m',
    step (handleCustomEvent event) m = Some m'
    /\ loadingText (app m') = "Loading Asset..."
    /\ isLoading (app m') = true.
Proof.
  intros Hrun Hev.
  assert (Hinv : loadingText (app m) = "Loading Asset..."
                 -> isLoading (app m) = true).
  { apply (loading_text_agrees inputs _ _ Hrun).
    cbn. destruct (source StreamConfig =? "gfn")%string;
      [discriminate|].
    destruct (source StreamConfig =? "stream")%string; discriminate. }
  exists (exec (handle event) m). split; [reflexivity|].
  destruct (activity_handled event (app m) Hev) as (r & rest & Hh & _).
  destruct (dispatch_result _ m _ _ _ Hh) as (A & _).
  rewrite A.
  destruct (loadingText (app m) =? "Loading Asset...")%string eqn:E.
  - apply String.eqb_eq in E. split; [exact E|exact (Hinv E)].
  - split; reflexivity.
Qed.

(** **** Starting twice *)

(** Nothing keeps the poll single: every report that the stream started
    while Kit is not ready sends a query and sets one more timer. *)
Theorem every_start_adds_a_poll k : forall m : Machine,
  isKitReady (app m) = false ->
  exists m',
    run (repeat onStarted k) m = Some m'
    /\ app m' = app m
    /\ length (timers m') = (length (timers m) + k)%nat
    /\ length (sent (trace m')) = (length (sent (trace m)) + k)%nat.
Proof.
  induction k as [|k IH]; intros m Hready.
  - exists m. cbn. repeat split; lia.
  - cbn [repeat Window.run Window.step].
    destruct (dispatch_result _ m _ _ _ (_pollForKitReady_waiting _ Hready))
      as (A & _ & T & S).
    destruct (IH (exec _onStreamStarted m)) as (m' & Hrun & A' & T' & S').
    { unfold _onStreamStarted. rewrite A. exact Hready. }
    exists m'. split; [exact Hrun|].
    unfold _onStreamStarted in *.
    rewrite A', T', S', A, T, S, !length_app. cbn. repeat split; lia.
Qed.

End Dispatcher.

End WindowSpec.

(** * Properties of the controller component *)

Module ControllerSpec.

Import Controller.
Local Open Scope list_scope.

Section Lifecycle.

Context {Application : Type}.
Variable StreamConfig : StreamConfigT.
Variable toLocaleTimeString : Z -> string.
Variable Number_toString : Z -> string.

Local Abbreviation AppState := (@AppState Application).
Local Abbreviation Machine := (@Machine Application).
Local Abbreviation initialState := (@initialState Application StreamConfig).
Local Abbreviation step :=
  (@step Application StreamConfig toLocaleTimeString Number_toString).
Local Abbreviation run :=
  (@run Application StreamConfig toLocaleTimeString Number_toString).
Local Abbreviation resume :=
  (@resume Application StreamConfig toLocaleTimeString Number_toString).
Local Abbreviation failure_message :=
  (Controller.failure_message Number_toString).

Ltac unfold_M :=
  unfold bind, try_catch, lift, emit, ret, getState, setState, clock,
    _resetState.

(** **** Bookkeeping *)

Lemma count_app p (tr1 tr2 : list (Z * Effect)) :
  count p (tr1 ++ tr2) = (count p tr1 + count p tr2)%nat.
Proof. unfold count. rewrite filter_app, length_app. reflexivity. Qed.

Lemma exec_result (c : M unit) (m : Machine) r s effs :
  c (now m) (app m) = (r, s, effs) ->
  exec c m
  = {| app := s;
       now := now m;
       pending := pending m ++ spawned (now m) effs;
       trace := trace m ++ map (pair (now m)) (effs ++ escaped r) |}.
Proof. intros H. unfold exec. rewrite H. reflexivity. Qed.

Lemma nth_error_last {A} (l : list A) x :
  nth_error (l ++ [x]) (length l) = Some x.
Proof. induction l; simpl; auto. Qed.

Lemma remove_nth_last {A} (l : list A) x :
  remove_nth (length l) (l ++ [x]) = l.
Proof. induction l; simpl; [reflexivity|]. f_equal. assumption. Qed.

(** The answer to the call that was issued last. *)
Lemma settle_last (m : Machine) l c cont reply body :
  pending m = l ++ [awaiting c cont] ->
  resume cont reply = Some body ->
  step (settle (length l) reply) m
  = Some (exec body {| app := app m; now := now m;
                       pending := l; trace := trace m |}).
Proof.
  intros Hp Hr. unfold Controller.step.
  rewrite Hp, nth_error_last, Hr. unfold without.
  rewrite Hp, remove_nth_last. reflexivity.
Qed.

(** **** Teardown, step by step *)

Lemma resetStream_without_session (m : Machine) :
  sessionId (app m) = "" ->
  step onStreamFailed m
  = Some {| app := initialState; now := now m; pending := pending m;
            trace := trace m ++ [(now m, AppStreamer_terminate)] |}.
Proof.
  intros H. cbn [Controller.step].
  unfold exec, _resetStream, _resetStream_resumed. unfold_M.
  rewrite H. simpl. rewrite app_nil_r. reflexivity.
Qed.

Lemma resetStream_with_session (m : Machine) :
  sessionId (app m) <> "" ->
  step onStreamFailed m
  = Some {| app := app m; now := now m;
            pending :=
              pending m
                ++ [awaiting
                      (getStreamingSessionInfo (streamServer (app m))
                         (sessionId (app m)))
                      (in_endStream_info (sessionId (app m)))];
            trace :=
              trace m
                ++ [(now m,
                     await
                       (getStreamingSessionInfo (streamServer (app m))
                          (sessionId (app m)))
                       (in_endStream_info (sessionId (app m))))] |}.
Proof.
  intros H. apply String.eqb_neq in H. cbn [Controller.step].
  unfold exec, _resetStream. unfold_M. rewrite H. reflexivity.
Qed.

Lemma endStream_session_unknown (m : Machine) l c sid info :
  pending m = l ++ [awaiting c (in_endStream_info sid)] ->
  status info <> 200 ->
  step (settle (length l) (session_reply (Normal info))) m
  = Some {| app := initialState; now := now m; pending := l;
            trace := trace m ++ [(now m, AppStreamer_terminate)] |}.
Proof.
  intros Hp Hs. apply Z.eqb_neq in Hs.
  erewrite settle_last by (try exact Hp; reflexivity).
  unfold exec, _endStream_info_resumed, _resetStream_resumed. unfold_M.
  cbn [app now pending trace]. rewrite Hs. simpl.
  rewrite app_nil_r. reflexivity.
Qed.

Lemma endStream_session_known (m : Machine) l c sid info :
  pending m = l ++ [awaiting c (in_endStream_info sid)] ->
  status info = 200 ->
  step (settle (length l) (session_reply (Normal info))) m
  = Some {| app := app m; now := now m;
            pending :=
              l ++ [awaiting
                      (destroyStreamingSession (streamServer (app m)) sid)
                      (in_endStream_destroy sid)];
            trace :=
              trace m
                ++ [(now m,
                     await
                       (destroyStreamingSession (streamServer (app m)) sid)
                       (in_endStream_destroy sid))] |}.
Proof.
  intros Hp Hs. apply Z.eqb_eq in Hs.
  erewrite settle_last by (try exact Hp; reflexivity).
  unfold exec, _endStream_info_resumed. unfold_M.
  cbn [app now pending trace]. rewrite Hs. reflexivity.
Qed.

Lemma endStream_destroyed (m : Machine) l c sid destroyed :
  pending m = l ++ [awaiting c (in_endStream_destroy sid)] ->
  step (settle (length l) (destroy_reply (Normal destroyed))) m
  = Some {| app := initialState; now := now m; pending := l;
            trace :=
              trace m
                ++ [(now m,
                     match detail destroyed with
                     | Some text => alert text
                     | None =>
                         console_info
                           ("Streaming Session " ++ sid ++ " Destroyed")%string
                     end);
                    (now m, AppStreamer_terminate)] |}.
Proof.
  intros Hp.
  erewrite settle_last by (try exact Hp; reflexivity).
  unfold exec, _endStream_destroy_resumed, _resetStream_resumed. unfold_M.
  cbn [app now pending trace].
  destruct (detail destroyed); simpl; rewrite app_nil_r; reflexivity.
Qed.

(** **** Teardown as a whole *)

Lemma teardown_runs (m : Machine) o :
  fits (app m) o ->
  exists m',
    run (teardown (length (pending m)) o) m = Some m'
    /\ app m' = initialState
    /\ now m' = now m
    /\ pending m' = pending m
    /\ trace m'
       = trace m ++ map (pair (now m)) (teardown_effects (app m) o).
Proof.
  destruct o as [|info|info destroyed]; cbn [fits teardown Controller.run];
    intros Hfits.
  - rewrite (resetStream_without_session m Hfits).
    eexists. split; [reflexivity|]. repeat split.
  - destruct Hfits as (Hheld & Hstatus).
    rewrite (resetStream_with_session m Hheld).
    erewrite endStream_session_unknown by (try exact Hstatus; reflexivity).
    eexists. split; [reflexivity|]. cbn [app now pending trace].
    rewrite <- app_assoc. repeat split.
  - destruct Hfits as (Hheld & Hstatus).
    rewrite (resetStream_with_session m Hheld).
    erewrite endStream_session_known by (try exact Hstatus; reflexivity).
    erewrite endStream_destroyed by reflexivity.
    eexists. split; [reflexivity|]. cbn [app now pending trace].
    rewrite <- !app_assoc. repeat split.
Qed.

(** A rejected call rejects [_endStream] and [_resetStream] with it:
    neither the reset nor the release is reached. *)
Lemma endStream_rejected (m : Machine) l c sid e :
  pending m = l ++ [awaiting c (in_endStream_info sid)] ->
  step (settle (length l) (session_reply (Throw e))) m
  = Some {| app := app m; now := now m; pending := l;
            trace := trace m ++ [(now m, uncaught e)] |}.
Proof.
  intros Hp.
  erewrite settle_last by (try exact Hp; reflexivity).
  unfold exec, _endStream_info_resumed. unfold_M.
  cbn [app now pending trace spawned escaped map]. rewrite app_nil_r.
  reflexivity.
Qed.

Lemma teardown_effects_shape (s : AppState) o :
  exists before,
    teardown_effects s o = before ++ [AppStreamer_terminate]
    /\ (forall info text,
          o = session_destroyed info {| detail := Some text |} ->
          In (alert text) before)
    /\ forall t,
         count is_uncaught (map (pair t) (teardown_effects s o)) = 0%nat
         /\ count is_terminate (map (pair t) before) = 0%nat
         /\ (count is_info_query (map (pair t) (teardown_effects s o))
             <= 1)%nat
         /\ (count is_destroy (map (pair t) (teardown_effects s o))
             <= 1)%nat.
Proof.
  destruct o as [|info|info [[text|]]]; cbn [teardown_effects detail].
  - exists []. split; [reflexivity|].
    split; [intros ? ? H; discriminate|].
    intros t. cbv. auto.
  - eexists [_]. split; [reflexivity|].
    split; [intros ? ? H; discriminate|].
    intros t. cbv. auto.
  - eexists [_; _; _]. split; [reflexivity|].
    split; [intros ? ? H; inversion H; subst; simpl; auto|].
    intros t. cbv. auto.
  - eexists [_; _; _]. split; [reflexivity|].
    split; [intros ? ? H; discriminate|].
    intros t. cbv. auto.
Qed.

(** C3: whichever way the backend answers the two calls of [_endStream]
    for a session that is held (the session info is not 200; or it is 200
    and the destroy call answers with or without a [detail]), the run of
    [_resetStream] ends with the state of the constructor and with
    [AppStreamer.terminate()] as its very last effect, performed once; a
    [detail] is shown in an alert before that. *)
Theorem resetStream_resets_and_releases (m : Machine) o :
  sessionId (app m) <> "" ->
  fits (app m) o ->
  exists m' before,
    run (teardown (length (pending m)) o) m = Some m'
    /\ app m' = initialState
    /\ pending m' = pending m
    /\ trace m'
       = trace m ++ map (pair (now m)) (before ++ [AppStreamer_terminate])
    /\ count is_terminate (map (pair (now m)) before) = 0%nat
    /\ count is_uncaught (trace m') = count is_uncaught (trace m)
    /\ forall info text,
         o = session_destroyed info {| detail := Some text |} ->
         In (alert text) before.
Proof.
  intros _ Hfits.
  destruct (teardown_runs m o Hfits) as (m' & Hrun & A & _ & P & T).
  destruct (teardown_effects_shape (app m) o)
    as (before & Hshape & Halert & Hcounts).
  destruct (Hcounts (now m)) as (Hun & Hterm & _).
  exists m', before.
  split; [exact Hrun|]. split; [exact A|]. split; [exact P|].
  split; [rewrite T, Hshape; reflexivity|].
  split; [exact Hterm|].
  split; [rewrite T, count_app, Hun; lia|exact Halert].
Qed.

(** C6: [_resetStream] with no session id held issues no backend call and
    throws nothing.  So of two runs of [_resetStream] in a row, the first
    one answered by the backend, the second issues no backend call and
    throws nothing, and both together query the session at most once and
    destroy it at most once. *)
Theorem resetStream_twice (m : Machine) o :
  fits (app m) o ->
  (forall m0 : Machine,
      sessionId (app m0) = "" ->
      exists m0',
        step onStreamFailed m0 = Some m0'
        /\ pending m0' = pending m0
        /\ count is_backend_call (trace m0')
           = count is_backend_call (trace m0)
        /\ count is_uncaught (trace m0') = count is_uncaught (trace m0))
  /\ exists m1 m2,
      run (teardown (length (pending m)) o) m = Some m1
      /\ step onStreamFailed m1 = Some m2
      /\ pending m2 = pending m
      /\ count is_backend_call (trace m2)
         = count is_backend_call (trace m1)
      /\ count is_uncaught (trace m2) = count is_uncaught (trace m)
      /\ (count is_info_query (trace m2)
          <= count is_info_query (trace m) + 1)%nat
      /\ (count is_destroy (trace m2)
          <= count is_destroy (trace m) + 1)%nat.
Proof.
  intros Hfits.
  assert (Hnoop : forall m0 : Machine,
      sessionId (app m0) = "" ->
      exists m0',
        step onStreamFailed m0 = Some m0'
        /\ pending m0' = pending m0
        /\ trace m0' = trace m0 ++ [(now m0, AppStreamer_terminate)]).
  { intros m0 H0. rewrite (resetStream_without_session m0 H0).
    eexists. split; [reflexivity|]. split; reflexivity. }
  split.
  - intros m0 H0. destruct (Hnoop m0 H0) as (m0' & Hstep & P & T).
    exists m0'. split; [exact Hstep|]. split; [exact P|].
    rewrite T, !count_app. cbv [count filter is_backend_call is_uncaught snd length].
    split; lia.
  - destruct (teardown_runs m o Hfits) as (m1 & Hrun & A1 & _ & P1 & T1).
    destruct (Hnoop m1) as (m2 & Hstep & P2 & T2).
    { rewrite A1. reflexivity. }
    destruct (teardown_effects_shape (app m) o)
      as (before & _ & _ & Hcounts).
    destruct (Hcounts (now m)) as (Hun & _ & Hinfo & Hdestroy).
    exists m1, m2.
    split; [exact Hrun|]. split; [exact Hstep|].
    split; [congruence|].
    rewrite T2, T1, !count_app, Hun.
    cbv [count filter is_backend_call is_uncaught is_info_query
           is_destroy snd length] in *.
    repeat split; lia.
Qed.

(** **** Route resolution *)

Lemma setupStream_attaches item serverIP routeData others
    signalingData mediaData t (s : AppState) :
  routes item = (serverIP, routeData) :: others ->
  find (has_description "signaling") routeData = Some signalingData ->
  find (has_description "media") routeData = Some mediaData ->
  setupStream item t s
  = (Normal tt,
     streaming (id item) serverIP signalingData mediaData s,
     [console_info_item "createdStream" item]).
Proof.
  intros Hr Hs Hm. unfold setupStream. unfold_M.
  rewrite Hr, Hs, Hm. reflexivity.
Qed.

Lemma setupStream_aborts item serverIP routeData others t (s : AppState) :
  routes item = (serverIP, routeData) :: others ->
  find (has_description "signaling") routeData = None
  \/ find (has_description "media") routeData = None ->
  setupStream item t s
  = (Normal tt, s,
     [console_info_item "createdStream" item;
      console_error "Signaling or media data is missing"]).
Proof.
  intros Hr Hnone. unfold setupStream. unfold_M. rewrite Hr.
  destruct Hnone as [H|H]; rewrite H.
  - reflexivity.
  - destruct (find (has_description "signaling") routeData); reflexivity.
Qed.

Lemma find_lacking tag (routeData : list Route) :
  (forall route, In route routeData -> description route <> tag) ->
  find (has_description tag) routeData = None.
Proof.
  intros H. destruct (find (has_description tag) routeData) eqn:E.
  - apply find_some in E. destruct E as (Hin & Hd).
    apply String.eqb_eq in Hd. exfalso. exact (H _ Hin Hd).
  - reflexivity.
Qed.

(** **** Creating a session, step by step *)

Lemma startStream_invoked (m : Machine) appId version profile :
  step (startStream appId version profile) m
  = Some {| app :=
              set_connectionText
                "Attempting to create streaming session..."
                (leaving_form profile (app m));
            now := now m;
            pending :=
              pending m
                ++ [awaiting
                      (createStreamingSession (streamServer (app m))
                         appId version profile)
                      (in_startStream appId version profile)];
            trace :=
              trace m
                ++ [(now m,
                     console_log
                       ("Creating Session for " ++ appId ++ " " ++ version
                          ++ ". Errors are expected as the stream updates.")%string);
                    (now m,
                     await
                       (createStreamingSession (streamServer (app m))
                          appId version profile)
                       (in_startStream appId version profile))] |}.
Proof. reflexivity. Qed.

Lemma created_with_error (m : Machine) l c appId version profile r :
  pending m = l ++ [awaiting c (in_startStream appId version profile)] ->
  400 < status r ->
  step (settle (length l) (session_reply (Normal r))) m
  = Some {| app := initialState; now := now m; pending := l;
            trace :=
              trace m
                ++ [(now m,
                     console_log (failure_message appId version (status r)));
                    (now m,
                     alert (failure_message appId version (status r)))] |}.
Proof.
  intros Hp Hs. apply Z.gtb_lt in Hs.
  erewrite settle_last by (try exact Hp; reflexivity).
  unfold exec, _startStream_resumed. unfold_M.
  cbn [app now pending trace]. rewrite Hs. simpl.
  rewrite app_nil_r. reflexivity.
Qed.

Lemma created_pending (m : Machine) l c appId version profile r :
  pending m = l ++ [awaiting c (in_startStream appId version profile)] ->
  status r = 202 ->
  step (settle (length l) (session_reply (Normal r))) m
  = Some {| app := initializing (id (data r)) (app m);
            now := now m;
            pending :=
              l ++ [awaiting
                      (getStreamingSessionInfo (streamServer (app m))
                         (id (data r)))
                      (in_pollForSessionReady (id (data r)))];
            trace :=
              trace m
                ++ [(now m, console_info "polling for session");
                    (now m,
                     await
                       (getStreamingSessionInfo (streamServer (app m))
                          (id (data r)))
                       (in_pollForSessionReady (id (data r))))] |}.
Proof.
  intros Hp Hs.
  erewrite settle_last by (try exact Hp; reflexivity).
  unfold exec, _startStream_resumed, pollForSessionReady. unfold_M.
  cbn [app now pending trace]. rewrite Hs. reflexivity.
Qed.

(** Any other status, 400 included, goes on to [setupStream]. *)
Lemma created_otherwise (m : Machine) l c appId version profile r :
  pending m = l ++ [awaiting c (in_startStream appId version profile)] ->
  status r <= 400 ->
  status r <> 202 ->
  step (settle (length l) (session_reply (Normal r))) m
  = Some (exec (setupStream (data r))
            {| app := initializing (id (data r)) (app m);
               now := now m; pending := l; trace := trace m |}).
Proof.
  intros Hp Hle Hne.
  assert (Hgt : (status r >? 400) = false) by lia.
  apply Z.eqb_neq in Hne.
  erewrite settle_last by (try exact Hp; reflexivity).
  unfold exec, _startStream_resumed. unfold_M.
  cbn [app now pending trace]. rewrite Hgt, Hne.
  destruct (setupStream (data r) (now m) (initializing (id (data r)) (app m)))
    as [[r' s'] effs].
  reflexivity.
Qed.

(** **** Polling, step by step *)

Lemma poll_not_ready (m : Machine) l c sid r :
  pending m = l ++ [awaiting c (in_pollForSessionReady sid)] ->
  status r <> 200 ->
  step (settle (length l) (session_reply (Normal r))) m
  = Some {| app := app m; now := now m;
            pending := l ++ [timer (now m + 10000)
                               (cb_pollForSessionReady sid)];
            trace :=
              trace m
                ++ [(now m,
                     setTimeout (cb_pollForSessionReady sid) 10000);
                    (now m,
                     console_log
                       ("Waiting for session " ++ sid
                          ++ " to be ready... Last checked at "
                          ++ toLocaleTimeString (now m))%string)] |}.
Proof.
  intros Hp Hs. apply Z.eqb_neq in Hs.
  erewrite settle_last by (try exact Hp; reflexivity).
  unfold exec, pollForSessionReady_resumed. unfold_M.
  cbn [app now pending trace]. rewrite Hs. reflexivity.
Qed.

Lemma poll_ready (m : Machine) l c sid r serverIP routeData others
    signalingData mediaData :
  pending m = l ++ [awaiting c (in_pollForSessionReady sid)] ->
  status r = 200 ->
  routes (data r) = (serverIP, routeData) :: others ->
  find (has_description "signaling") routeData = Some signalingData ->
  find (has_description "media") routeData = Some mediaData ->
  step (settle (length l) (session_reply (Normal r))) m
  = Some {| app :=
              streaming (id (data r)) serverIP signalingData mediaData
                (app m);
            now := now m;
            pending := l;
            trace :=
              trace m
                ++ [(now m,
                     console_info
                       "Session is ready. Waiting before setup...");
                    (now m,
                     console_info "Delay complete. Setting up stream...");
                    (now m,
                     console_info_item "createdStream" (data r))] |}.
Proof.
  intros Hp Hs Hr Hsig Hmed.
  erewrite settle_last by (try exact Hp; reflexivity).
  unfold exec, pollForSessionReady_resumed. unfold_M.
  cbn [app now pending trace]. rewrite Hs. cbn [Z.eqb Pos.eqb].
  rewrite (setupStream_attaches _ _ _ _ _ _ _ _ Hr Hsig Hmed).
  simpl. rewrite app_nil_r. reflexivity.
Qed.

Lemma retry_fires (m : Machine) due sid :
  pending m = [timer due (cb_pollForSessionReady sid)] ->
  step (timeout 0) m
  = Some {| app := app m;
            now := Z.max (now m) due;
            pending :=
              [awaiting
                 (getStreamingSessionInfo (streamServer (app m)) sid)
                 (in_pollForSessionReady sid)];
            trace :=
              trace m
                ++ [(Z.max (now m) due, console_info "polling for session");
                    (Z.max (now m) due,
                     await
                       (getStreamingSessionInfo (streamServer (app m)) sid)
                       (in_pollForSessionReady sid))] |}.
Proof.
  intros Hp. unfold Controller.step. rewrite Hp.
  cbn [nth_error forallb due_not_after]. rewrite Z.leb_refl.
  cbn [andb]. unfold without, at_time. rewrite Hp. reflexivity.
Qed.

(** **** Runs *)

Lemma run_app inputs1 inputs2 (m : Machine) :
  run (inputs1 ++ inputs2) m
  = match run inputs1 m with
    | Some m' => run inputs2 m'
    | None => None
    end.
Proof.
  revert m. induction inputs1 as [|i inputs1 IH]; intros m; simpl.
  - reflexivity.
  - destruct (step i m); [apply IH|reflexivity].
Qed.

(** One answer that is not 200, then the retry: the controller polls
    again, 10000 ms later, and nothing else has changed. *)
Lemma poll_round (m : Machine) sid r :
  polling sid m ->
  status r <> 200 ->
  exists m',
    run [settle 0 (session_reply (Normal r)); timeout 0] m = Some m'
    /\ polling sid m'
    /\ app m' = app m
    /\ now m' = now m + 10000
    /\ count is_setupStream (trace m') = count is_setupStream (trace m)
    /\ count is_alert (trace m') = count is_alert (trace m).
Proof.
  intros (c & Hp) Hs. cbn [Controller.run].
  pose proof (poll_not_ready m [] c sid r Hp Hs) as H1.
  cbn [length Datatypes.app] in H1. rewrite H1.
  erewrite retry_fires by reflexivity.
  eexists. split; [reflexivity|]. cbn [app now pending trace].
  split; [eexists; reflexivity|]. split; [reflexivity|].
  split; [lia|].
  rewrite !count_app. cbv [count filter is_setupStream is_alert snd length].
  split; lia.
Qed.

Lemma poll_rounds answers : forall (m : Machine) sid,
  polling sid m ->
  Forall (fun r => status r <> 200) answers ->
  exists m',
    run (retries answers) m = Some m'
    /\ polling sid m'
    /\ app m' = app m
    /\ now m' = now m + 10000 * Z.of_nat (length answers)
    /\ count is_setupStream (trace m') = count is_setupStream (trace m)
    /\ count is_alert (trace m') = count is_alert (trace m).
Proof.
  induction answers as [|r answers IH]; intros m sid Hpoll Hall.
  - exists m. cbn. repeat split; auto. lia.
  - inversion Hall as [|? ? Hr Hrest]; subst.
    destruct (poll_round m sid r Hpoll Hr) as (m1 & H1 & P1 & A1 & N1 & S1 & L1).
    destruct (IH m1 sid P1 Hrest) as (m' & H' & P' & A' & N' & S' & L').
    exists m'. split.
    { change (retries (r :: answers))
        with ([settle 0 (session_reply (Normal r)); timeout 0]
                ++ retries answers).
      rewrite run_app, H1. exact H'. }
    split; [exact P'|]. split; [congruence|].
    split; [cbn [length]; lia|]. split; congruence.
Qed.

(** **** The claims *)

(** C1, at status 400: the answer is not treated as an error.  No alert
    is shown, the id of the answer is stored as the session id,
    [setupStream] is invoked, and the controller is left initializing or
    streaming instead of being reset. *)
Theorem startStream_status_400_is_not_an_error appId version profile item :
  exists m' : Machine,
    run [startStream appId version profile;
         settle 0 (session_reply (Normal {| status := 400; data := item |}))]
      (boot StreamConfig)
    = Some m'
    /\ count is_alert (trace m') = 0%nat
    /\ count is_setupStream (trace m') = 1%nat
    /\ sessionId (app m') = id item
    /\ streamStatus (app m') <> StreamStatus.IDLE
    /\ currentForm (app m') <> Forms.AppOnly.
Proof.
  cbn [Controller.run]. rewrite startStream_invoked.
  match goal with
  | |- context [step _ ?m] =>
      pose proof (created_otherwise m [] _ appId version profile
                    {| status := 400; data := item |} eq_refl) as H
  end.
  cbn [length status data] in H. rewrite H by lia. clear H.
  eexists. split; [reflexivity|].
  unfold exec, setupStream. unfold_M.
  cbn [app now pending trace boot Datatypes.app].
  destruct (routes item) as [|[serverIP routeData] others].
  - cbv. repeat split; discriminate.
  - destruct (find (has_description "signaling") routeData);
      destruct (find (has_description "media") routeData);
      cbv; repeat split; discriminate.
Qed.

(** A status above 400 is treated as the error it is: one alert, the
    state of the constructor, and neither a session id nor a call of
    [setupStream]. *)
Lemma startStream_error_status_resets (m : Machine) appId version profile r :
  pending m = [] ->
  400 < status r ->
  exists m',
    run [startStream appId version profile;
         settle 0 (session_reply (Normal r))] m = Some m'
    /\ app m' = initialState
    /\ pending m' = []
    /\ count is_alert (trace m') = (count is_alert (trace m) + 1)%nat
    /\ count is_setupStream (trace m') = count is_setupStream (trace m)
    /\ count is_backend_call (trace m')
       = (count is_backend_call (trace m) + 1)%nat.
Proof.
  intros Hp Hs. cbn [Controller.run]. rewrite startStream_invoked, Hp.
  cbn [Datatypes.app].
  match goal with
  | |- context [step _ ?m0] =>
      pose proof (created_with_error m0 [] _ appId version profile r
                    eq_refl Hs) as H
  end.
  cbn [length Datatypes.app] in H. rewrite H. clear H.
  eexists. split; [reflexivity|]. cbn [app now pending trace].
  split; [reflexivity|]. split; [reflexivity|].
  rewrite !count_app.
  cbv [count filter is_alert is_setupStream is_backend_call snd length].
  repeat split; lia.
Qed.

(** C4: when the route mapping of a session has a first host whose
    routes include one described as signaling and one described as media,
    [setupStream] takes both servers from that host and the two ports
    from the first route of each description, copies the session id and
    shows the stream form, initialized.  It is invoked exactly once on
    the way there, both when the session is created with status 200 and
    when it is created with status 202 and polled, through any number of
    answers that are not 200, until the answer is 200. *)
Theorem setupStream_once_with_resolved_routes
    (m : Machine) appId version profile item serverIP routeData others
    signalingData mediaData created answers :
  pending m = [] ->
  routes item = (serverIP, routeData) :: others ->
  find (has_description "signaling") routeData = Some signalingData ->
  find (has_description "media") routeData = Some mediaData ->
  status created = 202 ->
  Forall (fun r => status r <> 200) answers ->
  let ready := {| status := 200; data := item |} in
  let attached (s : AppState) :=
    signalingserver s = serverIP
    /\ signalingport s = source_port signalingData
    /\ mediaserver s = serverIP
    /\ mediaport s = source_port mediaData
    /\ sessionId s = id item
    /\ currentForm s = Forms.Stream
    /\ streamStatus s = StreamStatus.INITIALIZED in
  (forall t s,
      exists s',
        setupStream item t s
        = (Normal tt, s', [console_info_item "createdStream" item])
        /\ attached s')
  /\ (exists m1,
        run [startStream appId version profile;
             settle 0 (session_reply (Normal ready))] m = Some m1
        /\ attached (app m1)
        /\ pending m1 = []
        /\ count is_setupStream (trace m1)
           = (count is_setupStream (trace m) + 1)%nat)
  /\ (exists m2,
        run (startStream appId version profile
               :: settle 0 (session_reply (Normal created))
               :: retries answers
               ++ [settle 0 (session_reply (Normal ready))]) m = Some m2
        /\ attached (app m2)
        /\ pending m2 = []
        /\ count is_setupStream (trace m2)
           = (count is_setupStream (trace m) + 1)%nat).
Proof.
  intros Hp Hr Hsig Hmed Hcreated Hall ready attached.
  split; [|split].
  - intros t s. eexists. split.
    + apply (setupStream_attaches _ _ _ _ _ _ _ _ Hr Hsig Hmed).
    + repeat split.
  - cbn [Controller.run]. rewrite startStream_invoked, Hp.
    cbn [Datatypes.app].
    match goal with
    | |- context [step _ ?m0] =>
        pose proof (created_otherwise m0 [] _ appId version profile ready
                      eq_refl) as H
    end.
    cbn [length status data ready] in H. rewrite H by lia. clear H.
    eexists. split; [reflexivity|].
    unfold exec. cbn [app now pending trace data ready].
    rewrite (setupStream_attaches _ _ _ _ _ _ _ _ Hr Hsig Hmed).
    cbn [app now pending trace spawned escaped map Datatypes.app].
    split; [repeat split|]. split; [reflexivity|].
    rewrite !count_app. cbv [count filter is_setupStream snd length]. lia.
  - cbn [Controller.run]. rewrite startStream_invoked, Hp.
    cbn [Datatypes.app].
    match goal with
    | |- context [step _ ?m0] =>
        pose proof (created_pending m0 [] _ appId version profile created
                      eq_refl Hcreated) as H
    end.
    cbn [length Datatypes.app] in H. rewrite H. clear H.
    match goal with
    | |- context [run _ ?m0] =>
        destruct (poll_rounds answers m0 (id (data created)))
          as (m1 & H1 & (c & P1) & A1 & _ & S1 & _);
          [eexists; reflexivity|exact Hall|]
    end.
    rewrite run_app, H1. cbn [Controller.run].
    pose proof (poll_ready m1 [] c _ ready _ _ _ _ _ P1 eq_refl
                  Hr Hsig Hmed) as H.
    cbn [length] in H. rewrite H. clear H.
    eexists. split; [reflexivity|]. cbn [app now pending trace].
    split; [repeat split|]. split; [reflexivity|].
    rewrite count_app, S1. cbn [trace]. rewrite !count_app.
    cbv [count filter is_setupStream snd length]. lia.
Qed.

(** C5: when the first host of the route mapping has no route described
    as signaling, or none described as media, [setupStream] logs its
    argument and the error and returns: the state stays as it is, so
    neither connection parameters nor the stream form are set, and
    nothing is scheduled. *)
Theorem setupStream_missing_route_aborts
    (m : Machine) item serverIP routeData others :
  routes item = (serverIP, routeData) :: others ->
  (forall route, In route routeData -> description route <> "signaling")
  \/ (forall route, In route routeData -> description route <> "media") ->
  (forall t (s : AppState),
      setupStream item t s
      = (Normal tt, s,
         [console_info_item "createdStream" item;
          console_error "Signaling or media data is missing"]))
  /\ app (exec (setupStream item) m) = app m
  /\ pending (exec (setupStream item) m) = pending m.
Proof.
  intros Hr Hlack.
  assert (Hnone :
    find (has_description "signaling") routeData = None
    \/ find (has_description "media") routeData = None).
  { destruct Hlack as [H|H]; [left|right]; apply find_lacking; exact H. }
  split.
  - intros t s. apply (setupStream_aborts _ _ _ _ _ _ Hr Hnone).
  - unfold exec. rewrite (setupStream_aborts _ _ _ _ _ _ Hr Hnone).
    cbn [app pending spawned]. rewrite app_nil_r. split; reflexivity.
Qed.


(** **** Answers that are no session *)

Lemma created_rejected (m : Machine) l c appId version profile e :
  pending m = l ++ [awaiting c (in_startStream appId version profile)] ->
  step (settle (length l) (session_reply (Throw e))) m
  = Some {| app := app m; now := now m; pending := l;
            trace := trace m ++ [(now m, uncaught e)] |}.
Proof.
  intros Hp.
  erewrite settle_last by (try exact Hp; reflexivity).
  unfold exec, _startStream_resumed. unfold_M.
  cbn [app now pending trace spawned escaped map]. rewrite app_nil_r.
  reflexivity.
Qed.

(** When [createStreamingSession] rejects, [_startStream] rejects with it:
    no alert is shown and nothing is reset, so the controller stays on the
    idle form with the text of the attempt. *)
Theorem rejected_creation_is_not_reported
    (m : Machine) appId version profile e :
  pending m = [] ->
  exists m',
    run [startStream appId version profile;
         settle 0 (session_reply (Throw e))] m = Some m'
    /\ app m'
       = set_connectionText "Attempting to create streaming session..."
           (leaving_form profile (app m))
    /\ pending m' = []
    /\ count is_alert (trace m') = count is_alert (trace m)
    /\ count is_uncaught (trace m') = (count is_uncaught (trace m) + 1)%nat.
Proof.
  intros Hp. cbn [Controller.run]. rewrite startStream_invoked, Hp.
  cbn [Datatypes.app].
  match goal with
  | |- context [step _ ?m0] =>
      pose proof (created_rejected m0 [] _ appId version profile e eq_refl)
        as H
  end.
  cbn [length Datatypes.app] in H. rewrite H. clear H.
  eexists. split; [reflexivity|]. cbn [app now pending trace].
  split; [reflexivity|]. split; [reflexivity|].
  rewrite !count_app. cbv [count filter is_alert is_uncaught snd length].
  split; lia.
Qed.

(** Every status that is neither 202 nor above 400 is taken for a session
    that is ready, not 200 alone: with routes that resolve, the stream form
    comes up without an alert. *)
Theorem any_other_status_is_ready
    (m : Machine) appId version profile r serverIP routeData others
    signalingData mediaData :
  pending m = [] ->
  status r <= 400 ->
  status r <> 202 ->
  routes (data r) = (serverIP, routeData) :: others ->
  find (has_description "signaling") routeData = Some signalingData ->
  find (has_description "media") routeData = Some mediaData ->
  exists m',
    run [startStream appId version profile;
         settle 0 (session_reply (Normal r))] m = Some m'
    /\ app m'
       = streaming (id (data r)) serverIP signalingData mediaData
           (initializing (id (data r))
              (set_connectionText "Attempting to create streaming session..."
                 (leaving_form profile (app m))))
    /\ pending m' = []
    /\ count is_alert (trace m') = count is_alert (trace m)
    /\ count is_uncaught (trace m') = count is_uncaught (trace m).
Proof.
  intros Hp Hle Hne Hr Hsig Hmed. cbn [Controller.run].
  rewrite startStream_invoked, Hp. cbn [Datatypes.app].
  match goal with
  | |- context [step _ ?m0] =>
      pose proof (created_otherwise m0 [] _ appId version profile r
                    eq_refl Hle Hne) as H
  end.
  cbn [length] in H. rewrite H. clear H.
  eexists. split; [reflexivity|].
  unfold exec. cbn [app now pending trace].
  rewrite (setupStream_attaches _ _ _ _ _ _ _ _ Hr Hsig Hmed).
  cbn [app now pending trace spawned escaped map Datatypes.app].
  split; [reflexivity|]. split; [reflexivity|].
  rewrite !count_app. cbv [count filter is_alert is_uncaught snd length].
  split; lia.
Qed.

(** A session without any host in its route mapping makes [setupStream]
    throw a TypeError.  On the way from [_startStream] nobody catches it:
    the session id stays stored and the status stays initializing. *)
Theorem session_without_hosts_throws
    (m : Machine) appId version profile r :
  pending m = [] ->
  status r <= 400 ->
  status r <> 202 ->
  routes (data r) = [] ->
  (forall t (s : AppState),
      setupStream (data r) t s
      = (Throw Js.TypeError, s, [console_info_item "createdStream" (data r)]))
  /\ exists m',
      run [startStream appId version profile;
           settle 0 (session_reply (Normal r))] m = Some m'
      /\ app m'
         = initializing (id (data r))
             (set_connectionText "Attempting to create streaming session..."
                (leaving_form profile (app m)))
      /\ pending m' = []
      /\ count is_alert (trace m') = count is_alert (trace m)
      /\ count is_uncaught (trace m')
         = (count is_uncaught (trace m) + 1)%nat.
Proof.
  intros Hp Hle Hne Hr.
  assert (Hthrow : forall t (s : AppState),
    setupStream (data r) t s
    = (Throw Js.TypeError, s, [console_info_item "createdStream" (data r)])).
  { intros t s. unfold setupStream. unfold_M. rewrite Hr. reflexivity. }
  split; [exact Hthrow|].
  cbn [Controller.run]. rewrite startStream_invoked, Hp. cbn [Datatypes.app].
  match goal with
  | |- context [step _ ?m0] =>
      pose proof (created_otherwise m0 [] _ appId version profile r
                    eq_refl Hle Hne) as H
  end.
  cbn [length] in H. rewrite H. clear H.
  eexists. split; [reflexivity|].
  unfold exec. cbn [app now pending trace]. rewrite Hthrow.
  cbn [app now pending trace spawned escaped map Datatypes.app].
  split; [reflexivity|]. split; [reflexivity|].
  rewrite !count_app. cbv [count filter is_alert is_uncaught snd length].
  split; lia.
Qed.

(** **** Polls that end the chain *)

(** A poll whose query rejects logs the error and schedules nothing: the
    chain of retries ends there, with the state as it was. *)
Theorem rejected_poll_ends_the_chain (m : Machine) sid e :
  polling sid m ->
  exists m',
    step (settle 0 (session_reply (Throw e))) m = Some m'
    /\ app m' = app m
    /\ pending m' = []
    /\ trace m'
       = trace m
           ++ [(now m, console_error_with "Error polling session info:" e)].
Proof.
  intros (c & Hp).
  pose proof (settle_last m [] c (in_pollForSessionReady sid)
                (session_reply (Throw e)) _ Hp eq_refl) as H.
  cbn [length] in H. rewrite H.
  eexists. split; [reflexivity|].
  unfold exec, pollForSessionReady_resumed. unfold_M.
  cbn [app now pending trace spawned escaped map Datatypes.app].
  repeat split.
Qed.

(** A poll that is answered 200 with routes that do not resolve (no host, or
    a first host without a signaling or a media route) ends the chain as
    well: the failure goes to the console, also the TypeError for the missing
    host, which is caught; nothing is scheduled, shown or changed. *)
Theorem unresolved_poll_ends_the_chain (m : Machine) sid r :
  polling sid m ->
  status r = 200 ->
  routes (data r) = []
  \/ (exists serverIP routeData others,
        routes (data r) = (serverIP, routeData) :: others
        /\ (find (has_description "signaling") routeData = None
            \/ find (has_description "media") routeData = None)) ->
  exists m',
    step (settle 0 (session_reply (Normal r))) m = Some m'
    /\ app m' = app m
    /\ pending m' = []
    /\ count is_alert (trace m') = count is_alert (trace m)
    /\ count is_uncaught (trace m') = count is_uncaught (trace m).
Proof.
  intros (c & Hp) Hs Hroutes.
  pose proof (settle_last m [] c (in_pollForSessionReady sid)
                (session_reply (Normal r)) _ Hp eq_refl) as H.
  cbn [length] in H. rewrite H. clear H.
  eexists. split; [reflexivity|].
  unfold exec, pollForSessionReady_resumed. unfold_M.
  cbn [app now pending trace]. rewrite Hs. cbn [Z.eqb Pos.eqb].
  destruct Hroutes as [Hr|(serverIP & routeData & others & Hr & Hnone)].
  - unfold setupStream. unfold_M. rewrite Hr.
    cbn [app now pending trace spawned escaped map Datatypes.app].
    split; [reflexivity|]. split; [reflexivity|].
    rewrite !count_app. cbv [count filter is_alert is_uncaught snd length].
    split; lia.
  - rewrite (setupStream_aborts _ _ _ _ _ _ Hr Hnone).
    cbn [app now pending trace spawned escaped map Datatypes.app].
    split; [reflexivity|]. split; [reflexivity|].
    rewrite !count_app. cbv [count filter is_alert is_uncaught snd length].
    split; lia.
Qed.

(** The number of retries has no bound: after a creation answered 202, as
    long as the answers to the poll are not 200 the controller polls again
    10000 ms after each of them, shows no alert and leaves the state at
    initializing. *)
Theorem polling_goes_on_while_not_ready
    (m : Machine) appId version profile created answers :
  pending m = [] ->
  status created = 202 ->
  Forall (fun r => status r <> 200) answers ->
  exists m',
    run (startStream appId version profile
           :: settle 0 (session_reply (Normal created))
           :: retries answers) m = Some m'
    /\ polling (id (data created)) m'
    /\ app m'
       = initializing (id (data created))
           (set_connectionText "Attempting to create streaming session..."
              (leaving_form profile (app m)))
    /\ now m' = now m + 10000 * Z.of_nat (length answers)
    /\ count is_alert (trace m') = count is_alert (trace m)
    /\ count is_setupStream (trace m') = count is_setupStream (trace m).
Proof.
  intros Hp Hcreated Hall. cbn [Controller.run].
  rewrite startStream_invoked, Hp. cbn [Datatypes.app].
  match goal with
  | |- context [step _ ?m0] =>
      pose proof (created_pending m0 [] _ appId version profile created
                    eq_refl Hcreated) as H
  end.
  cbn [length Datatypes.app] in H. rewrite H. clear H.
  match goal with
  | |- context [run _ ?m0] =>
      destruct (poll_rounds answers m0 (id (data created)))
        as (m1 & H1 & P1 & A1 & N1 & S1 & L1);
        [eexists; reflexivity|exact Hall|]
  end.
  cbn [app now pending trace] in A1, N1, S1, L1.
  exists m1. split; [exact H1|]. split; [exact P1|]. split; [exact A1|].
  split; [exact N1|].
  rewrite L1, S1, !count_app.
  cbv [count filter is_alert is_setupStream snd length]. split; lia.
Qed.

(** **** Teardowns that go wrong *)

Lemma endStream_destroy_rejected (m : Machine) l c sid e :
  pending m = l ++ [awaiting c (in_endStream_destroy sid)] ->
  step (settle (length l) (destroy_reply (Throw e))) m
  = Some {| app := app m; now := now m; pending := l;
            trace := trace m ++ [(now m, uncaught e)] |}.
Proof.
  intros Hp.
  erewrite settle_last by (try exact Hp; reflexivity).
  unfold exec, _endStream_destroy_resumed. unfold_M.
  cbn [app now pending trace spawned escaped map]. rewrite app_nil_r.
  reflexivity.
Qed.

(** When one of the two backend calls of [_endStream] rejects, the rejection
    passes through [_resetStream]: the state is not reset, the session id
    stays held, and [AppStreamer.terminate()] is not reached. *)
Theorem rejected_teardown_releases_nothing (m : Machine) info e :
  sessionId (app m) <> "" ->
  status info = 200 ->
  (exists m1,
      run [onStreamFailed;
           settle (length (pending m)) (session_reply (Throw e))] m = Some m1
      /\ app m1 = app m
      /\ pending m1 = pending m
      /\ count is_terminate (trace m1) = count is_terminate (trace m)
      /\ count is_uncaught (trace m1) = (count is_uncaught (trace m) + 1)%nat)
  /\ (exists m2,
        run [onStreamFailed;
             settle (length (pending m)) (session_reply (Normal info));
             settle (length (pending m)) (destroy_reply (Throw e))] m
        = Some m2
        /\ app m2 = app m
        /\ pending m2 = pending m
        /\ count is_terminate (trace m2) = count is_terminate (trace m)
        /\ count is_uncaught (trace m2)
           = (count is_uncaught (trace m) + 1)%nat).
Proof.
  intros Hheld Hstatus. split.
  - cbn [Controller.run]. rewrite (resetStream_with_session m Hheld).
    erewrite endStream_rejected by reflexivity.
    eexists. split; [reflexivity|]. cbn [app now pending trace].
    split; [reflexivity|]. split; [reflexivity|].
    rewrite !count_app.
    cbv [count filter is_terminate is_uncaught snd length]. split; lia.
  - cbn [Controller.run]. rewrite (resetStream_with_session m Hheld).
    erewrite endStream_session_known by (try exact Hstatus; reflexivity).
    erewrite endStream_destroy_rejected by reflexivity.
    eexists. split; [reflexivity|]. cbn [app now pending trace].
    split; [reflexivity|]. split; [reflexivity|].
    rewrite !count_app.
    cbv [count filter is_terminate is_uncaught snd length]. split; lia.
Qed.

(** Nothing keeps the teardown single: when [_resetStream] is invoked again
    before the first run has its answer, both runs see the session id, and
    the session is queried twice, destroyed twice and the stream released
    twice. *)
Theorem overlapping_teardowns_both_destroy
    (m : Machine) info1 info2 destroyed1 destroyed2 :
  pending m = [] ->
  sessionId (app m) <> "" ->
  status info1 = 200 ->
  status info2 = 200 ->
  exists m',
    run [onStreamFailed;
         onStreamFailed;
         settle 1 (session_reply (Normal info2));
         settle 1 (destroy_reply (Normal destroyed2));
         settle 0 (session_reply (Normal info1));
         settle 0 (destroy_reply (Normal destroyed1))] m = Some m'
    /\ app m' = initialState
    /\ pending m' = []
    /\ count is_info_query (trace m') = (count is_info_query (trace m) + 2)%nat
    /\ count is_destroy (trace m') = (count is_destroy (trace m) + 2)%nat
    /\ count is_terminate (trace m')
       = (count is_terminate (trace m) + 2)%nat.
Proof.
  intros Hp Hheld H1 H2. cbn [Controller.run].
  rewrite (resetStream_with_session m Hheld), Hp. cbn [Datatypes.app].
  erewrite resetStream_with_session by (cbn [app]; exact Hheld).
  cbn [app now pending trace Datatypes.app].
  match goal with
  | |- context [step (settle 1 _) ?m0] =>
      pose proof (endStream_session_known m0 [_] _ _ info2 eq_refl H2) as H
  end.
  cbn [length app now pending trace Datatypes.app] in H. rewrite H. clear H.
  match goal with
  | |- context [step (settle 1 _) ?m0] =>
      pose proof (endStream_destroyed m0 [_] _ _ destroyed2 eq_refl) as H
  end.
  cbn [length app now pending trace Datatypes.app] in H. rewrite H. clear H.
  match goal with
  | |- context [step (settle 0 _) ?m0] =>
      pose proof (endStream_session_known m0 [] _ _ info1 eq_refl H1) as H
  end.
  cbn [length app now pending trace Datatypes.app] in H. rewrite H. clear H.
  match goal with
  | |- context [step (settle 0 _) ?m0] =>
      pose proof (endStream_destroyed m0 [] _ _ destroyed1 eq_refl) as H
  end.
  cbn [length app now pending trace Datatypes.app] in H. rewrite H. clear H.
  eexists. split; [reflexivity|]. cbn [app now pending trace].
  split; [reflexivity|]. split; [reflexivity|].
  rewrite !count_app.
  destruct (detail destroyed1); destruct (detail destroyed2);
    cbv [count filter is_info_query is_destroy is_terminate snd length];
    repeat split; lia.
Qed.

(** **** Answers that come after the teardown *)

(** [_startStream] does not look at the state when the answer arrives: if
    the session is given up while it is being created, the teardown finds no
    session id and calls nothing, and the answer that comes afterwards brings
    the stream form up on the state that was just reset.  The session is
    never destroyed. *)
Theorem cancelled_creation_still_attaches
    (m : Machine) appId version profile r serverIP routeData others
    signalingData mediaData :
  pending m = [] ->
  sessionId (app m) = "" ->
  status r = 200 ->
  routes (data r) = (serverIP, routeData) :: others ->
  find (has_description "signaling") routeData = Some signalingData ->
  find (has_description "media") routeData = Some mediaData ->
  exists m1 m2,
    run [startStream appId version profile; onStreamFailed] m = Some m1
    /\ app m1 = initialState
    /\ count is_terminate (trace m1) = (count is_terminate (trace m) + 1)%nat
    /\ step (settle 0 (session_reply (Normal r))) m1 = Some m2
    /\ app m2
       = streaming (id (data r)) serverIP signalingData mediaData
           (initializing (id (data r)) initialState)
    /\ pending m2 = []
    /\ count is_destroy (trace m2) = count is_destroy (trace m)
    /\ count is_info_query (trace m2) = count is_info_query (trace m).
Proof.
  intros Hp Hnone Hs Hr Hsig Hmed. cbn [Controller.run].
  rewrite startStream_invoked, Hp. cbn [Datatypes.app].
  erewrite resetStream_without_session by (cbn [app]; exact Hnone).
  cbn [app now pending trace].
  eexists. eexists. split; [reflexivity|]. cbn [app now pending trace].
  split; [reflexivity|].
  split.
  { rewrite !count_app. cbv [count filter is_terminate snd length]. lia. }
  match goal with
  | |- context [step _ ?m0] =>
      pose proof (created_otherwise m0 [] _ appId version profile r
                    eq_refl) as H
  end.
  cbn [length] in H. rewrite H by lia. clear H.
  split; [reflexivity|].
  unfold exec. cbn [app now pending trace].
  rewrite (setupStream_attaches _ _ _ _ _ _ _ _ Hr Hsig Hmed).
  cbn [app now pending trace spawned escaped map Datatypes.app].
  split; [reflexivity|]. split; [reflexivity|].
  rewrite !count_app.
  cbv [count filter is_destroy is_info_query snd length]. split; lia.
Qed.

(** The retry that outlives a teardown attaches the session all the same
    when the backend then reports it ready: the stream form comes up on the
    state the teardown had reset. *)
Theorem stale_poll_attaches_after_teardown
    (m : Machine) o due sid r serverIP routeData others
    signalingData mediaData :
  pending m = [timer due (cb_pollForSessionReady sid)] ->
  fits (app m) o ->
  status r = 200 ->
  routes (data r) = (serverIP, routeData) :: others ->
  find (has_description "signaling") routeData = Some signalingData ->
  find (has_description "media") routeData = Some mediaData ->
  exists m1 m2,
    run (teardown 1 o) m = Some m1
    /\ app m1 = initialState
    /\ run [timeout 0; settle 0 (session_reply (Normal r))] m1 = Some m2
    /\ app m2
       = streaming (id (data r)) serverIP signalingData mediaData initialState
    /\ pending m2 = [].
Proof.
  intros Hp Hfits Hs Hr Hsig Hmed.
  destruct (teardown_runs m o Hfits) as (m1 & Hrun & A1 & N1 & P1 & _).
  rewrite Hp in Hrun, P1. cbn [length] in Hrun.
  exists m1. eexists. split; [exact Hrun|]. split; [exact A1|].
  cbn [Controller.run]. rewrite (retry_fires m1 due sid P1).
  match goal with
  | |- context [step _ ?m0] =>
      pose proof (poll_ready m0 [] _ sid r _ _ _ _ _ eq_refl Hs Hr Hsig Hmed)
        as H
  end.
  cbn [length app now pending trace] in H. rewrite H. clear H.
  split; [reflexivity|]. cbn [app pending]. rewrite A1.
  split; reflexivity.
Qed.

(** **** What stays as configured *)

Local Abbreviation keeps := (@keeps_configuration Application StreamConfig).
Local Abbreviation configured := (@as_configured Application StreamConfig).
Local Abbreviation calls_ok := (calls_configured StreamConfig).

Ltac unfold_M_in H :=
  unfold bind, try_catch, lift, emit, ret, getState, setState, clock,
    _resetState in H.

Ltac keep_state :=
  unfold as_configured in *; cbn;
  repeat match goal with H : _ /\ _ |- _ => destruct H end;
  repeat split; auto; try (right; f_equal; assumption).

Ltac keep_calls Hserver :=
  let Hin := fresh "Hin" in
  intros ? ? Hin; cbn in Hin;
  repeat (destruct Hin as [Hin|Hin];
          [try discriminate;
           try (injection Hin as <- <-; cbn; exact Hserver)|]);
  try contradiction.

Ltac keep_both H Hc :=
  let Hserver := fresh "Hserver" in
  pose proof (proj1 (proj2 Hc)) as Hserver;
  inversion H; subst; clear H;
  split; [keep_state|keep_calls Hserver].

Lemma setupStream_keeps item : keeps (setupStream item).
Proof.
  intros t s r s' effs H Hc. unfold setupStream in H. unfold_M_in H.
  destruct (routes item) as [|[serverIP routeData] others];
    [keep_both H Hc|].
  destruct (find (has_description "signaling") routeData);
    destruct (find (has_description "media") routeData);
    keep_both H Hc.
Qed.

Lemma pollForSessionReady_keeps sid :
  keeps (pollForSessionReady sid).
Proof.
  intros t s r s' effs H Hc. unfold pollForSessionReady in H.
  unfold_M_in H. keep_both H Hc.
Qed.

Lemma _startStream_keeps appId version profile :
  keeps (_startStream appId version profile).
Proof.
  intros t s r s' effs H Hc. unfold _startStream in H.
  unfold_M_in H. keep_both H Hc.
Qed.

Lemma _resetStream_keeps : keeps (_resetStream StreamConfig).
Proof.
  intros t s r s' effs H Hc. unfold _resetStream, _resetStream_resumed in H.
  unfold_M_in H. cbn in H.
  destruct (sessionId s =? "")%string; keep_both H Hc.
Qed.

Lemma initializing_configured newId (s : AppState) :
  configured s -> configured (initializing newId s).
Proof. intros Hc. keep_state. Qed.

Lemma resumed_keeps cont reply body :
  resume cont reply = Some body -> keeps body.
Proof.
  destruct cont as [appId version profile|sid|sid|sid];
    destruct reply as [settled|settled]; cbn [Controller.resume];
    intros Hbody; try discriminate; injection Hbody as <-;
    intros t s r s' effs H Hc.
  - (* _startStream *)
    unfold _startStream_resumed in H. unfold_M_in H.
    destruct settled as [response|e]; [|keep_both H Hc].
    cbv beta iota zeta in H.
    destruct (status response >? 400); [keep_both H Hc|].
    cbv beta iota zeta in H.
    destruct (status response =? 202).
    + unfold pollForSessionReady in H. unfold_M_in H.
      cbv beta iota zeta in H. keep_both H Hc.
    + destruct (setupStream (data response) t
                  (initializing (id (data response)) s))
        as [[r1 s1] e1] eqn:Hsetup.
      destruct (setupStream_keeps _ _ _ _ _ _ Hsetup
                  (initializing_configured _ _ Hc)) as (Hs1 & He1).
      inversion H; subst. split; [exact Hs1|exact He1].
  - (* pollForSessionReady *)
    unfold pollForSessionReady_resumed in H. unfold_M_in H.
    destruct settled as [response|e]; [|keep_both H Hc].
    cbv beta iota zeta in H.
    destruct (status response =? 200); [|keep_both H Hc].
    cbv beta iota zeta in H.
    destruct (setupStream (data response) t s) as [[r1 s1] e1] eqn:Hsetup.
    destruct (setupStream_keeps _ _ _ _ _ _ Hsetup Hc) as (Hs1 & He1).
    destruct r1; inversion H; subst; (split; [exact Hs1|]);
      intros c k Hin; cbn in Hin;
      repeat (destruct Hin as [Hin|Hin]; [discriminate|]);
      try (apply in_app_or in Hin; destruct Hin as [Hin|Hin];
           [|cbn in Hin; destruct Hin as [Hin|[]]; discriminate]);
      exact (He1 c k Hin).
  - (* _endStream, first await *)
    unfold _endStream_info_resumed, _resetStream_resumed in H.
    unfold_M_in H.
    destruct settled as [response|e]; [|keep_both H Hc].
    destruct (status response =? 200); cbn in H; keep_both H Hc.
  - (* _endStream, second await *)
    unfold _endStream_destroy_resumed, _resetStream_resumed in H.
    unfold_M_in H.
    destruct settled as [destroyResponse|e]; [|keep_both H Hc].
    destruct (detail destroyResponse); cbn in H; keep_both H Hc.
Qed.

Lemma exec_keeps (c : M unit) (m0 m : Machine) :
  keeps c ->
  app m0 = app m ->
  trace m0 = trace m ->
  configured (app m) ->
  calls_ok (map snd (trace m)) ->
  configured (app (exec c m0))
  /\ calls_ok (map snd (trace (exec c m0))).
Proof.
  intros Hkeeps Happ Htrace Hc Hcalls. unfold exec.
  destruct (c (now m0) (app m0)) as [[r s'] effs] eqn:Hrun.
  rewrite Happ in Hrun.
  destruct (Hkeeps _ _ _ _ _ Hrun Hc) as (Hs' & Heffs).
  cbn [app trace]. split; [exact Hs'|].
  rewrite Htrace, map_app, map_map. cbn [snd]. rewrite map_id.
  intros c0 k Hin. apply in_app_or in Hin. destruct Hin as [Hin|Hin].
  - exact (Hcalls c0 k Hin).
  - apply in_app_or in Hin. destruct Hin as [Hin|Hin].
    + exact (Heffs c0 k Hin).
    + destruct r; cbn in Hin; [contradiction|].
      destruct Hin as [Hin|[]]. discriminate.
Qed.

Lemma step_keeps i (m m' : Machine) :
  step i m = Some m' ->
  configured (app m) ->
  calls_ok (map snd (trace m)) ->
  configured (app m') /\ calls_ok (map snd (trace m')).
Proof.
  destruct i as [appId version profile| |k reply|k|dt];
    cbn [Controller.step]; intros H Hc Hcalls.
  - injection H as <-.
    apply (exec_keeps _ m m (_startStream_keeps _ _ _)); auto.
  - injection H as <-.
    apply (exec_keeps _ m m _resetStream_keeps); auto.
  - destruct (nth_error (pending m) k) as [[c cont|]|]; try discriminate.
    destruct (resume cont reply) as [body|] eqn:Hbody; [|discriminate].
    injection H as <-.
    apply (exec_keeps _ _ m (resumed_keeps _ _ _ Hbody)); auto.
  - destruct (nth_error (pending m) k) as [[|due [sid]]|]; try discriminate.
    destruct (forallb (due_not_after due) (pending m)); [|discriminate].
    injection H as <-. cbn [run_callback].
    apply (exec_keeps _ _ m (pollForSessionReady_keeps sid)); auto.
  - destruct (0 <=? dt); [|discriminate]. injection H as <-.
    cbn [app trace at_time]. auto.
Qed.

(** In every state the controller reaches from its constructor, the servers
    and the other fields that come from the configuration are what the
    constructor made them, the signaling and the media server are the same,
    and every call to the backend went to the configured stream server. *)
Theorem configuration_is_kept inputs (m : Machine) :
  run inputs (boot StreamConfig) = Some m ->
  configured (app m)
  /\ calls_ok (map snd (trace m)).
Proof.
  assert (Hgen : forall inputs (m0 m' : Machine),
    run inputs m0 = Some m' ->
    configured (app m0) ->
    calls_ok (map snd (trace m0)) ->
    configured (app m')
    /\ calls_ok (map snd (trace m'))).
  { clear inputs m.
    induction inputs as [|i inputs IH]; intros m0 m' H Hc Hcalls;
      cbn [Controller.run] in H.
    - injection H as <-. auto.
    - destruct (step i m0) as [m1|] eqn:Hstep; [|discriminate].
      destruct (step_keeps i m0 m1 Hstep Hc Hcalls) as (Hc1 & Hcalls1).
      exact (IH m1 m' H Hc1 Hcalls1). }
  intros H. apply (Hgen inputs _ _ H).
  - unfold as_configured. cbn. repeat split; auto.
  - intros c k Hin. cbn in Hin. contradiction.
Qed.

End Lifecycle.

End ControllerSpec.

(** * The properties on the sample inputs *)

Module Checked.

Import Sample.
Local Open Scope list_scope.

(** The unknown event addressed to Kit makes the handler throw: its [data]
    is missing, and [JSON.parse] rejects the text [undefined]. *)
Lemma unrecognized_event_throws :
  Window.unrecognized selection_changed = true
  /\ Window._handleCustomEvent JSON_parse_literals selection_changed
       (Window.initialState config)
     = (Throw Js.SyntaxError, Window.initialState config,
        [Window.console_log "onCustomEvent"]).
Proof. split; reflexivity. Qed.

(** So does an event whose type [==] cannot convert, at the second
    comparison, although it is not addressed to Kit. *)
Lemma inconvertible_type_throws :
  Window.unrecognized inconvertible_type = true
  /\ Window.comparable inconvertible_type = false
  /\ Window._handleCustomEvent JSON_parse_literals inconvertible_type
       (Window.initialState config)
     = (Throw Js.TypeError, Window.initialState config, []).
Proof. repeat split. Qed.


(** The answer with status 400 is taken for a session: its id is stored and
    [setupStream] is invoked, which finds no host and throws. *)
Lemma bad_request_reaches_setupStream :
  exists m : @Controller.Machine Application,
    Controller.run config toLocaleTimeString Number_toString
      [Controller.startStream "usd-viewer" "106.1.0" "default";
       Controller.settle 0 (Controller.session_reply (Normal bad_request))]
      controller = Some m
    /\ Controller.sessionId (Controller.app m) = "session-1"
    /\ Controller.currentForm (Controller.app m) = Forms.IDLE
    /\ Controller.streamStatus (Controller.app m) = StreamStatus.INITIALIZING
    /\ map snd (skipn 2 (Controller.trace m))
       = [Controller.console_info_item "createdStream" session_pending;
          Controller.uncaught Js.TypeError].
Proof.
  eexists. split; [vm_compute; reflexivity|].
  repeat split.
Qed.

(** **** Window *)

Lemma loadingStateResponse_kitReady_once_witness :
  Window.has_event_type "loadingStateResponse" response = true
  /\ Forall (fun e => Window.has_event_type "loadingStateResponse" e = true)
       [response; response]
  /\ exists m1 m3,
       Window.step config JSON_parse_literals
         (Window.handleCustomEvent response) window = Some m1
       /\ Window.app m1
          = Window.set_isKitReady true (Window.initialState config)
       /\ Window.sent (Window.trace m1)
          = [(0, Window.loadingStateQuery_message)]
       /\ Window.run config JSON_parse_literals
            (map Window.handleCustomEvent [response; response]) m1
          = Some m3
       /\ Window.app m3 = Window.app m1
       /\ Window.sent (Window.trace m3) = Window.sent (Window.trace m1).
Proof.
  assert (H1 : Window.has_event_type "loadingStateResponse" response = true)
    by reflexivity.
  assert (H2 : Forall
                 (fun e =>
                    Window.has_event_type "loadingStateResponse" e = true)
                 [response; response])
    by (repeat constructor).
  split; [exact H1|]. split; [exact H2|].
  destruct (WindowSpec.loadingStateResponse_kitReady_once config
              JSON_parse_literals response [response; response] window H1 H2)
    as (m1 & Hstep & Hfirst & _ & _ & Hrest).
  destruct (Hfirst eq_refl) as (A1 & S1).
  destruct (Hrest 2%nat) as (m3 & Hrun & _ & A3 & _ & S3).
  exists m1, m3.
  split; [exact Hstep|]. split; [exact A1|]. split; [exact S1|].
  split; [exact Hrun|]. split; [exact A3|exact S3].
Defined.

Lemma openedStageResult_failure_only_reported_witness :
  Window.has_event_type "openedStageResult" stage_failed = true
  /\ Js.prop stage_failed "payload" = Normal failure
  /\ Js.prop failure "result" = Normal (Js.str "error")
  /\ Js.strict_eq_str (Js.str "error") "success" = false
  /\ exists r rest,
       Window._handleCustomEvent JSON_parse_literals stage_failed
         (Window.initialState config)
       = (r, Window.initialState config,
          Window.console_error
            "Kit App communicates there was an error loading: omniverse://assets/stage.usd"
            :: rest)
       /\ Window.outbound rest = [].
Proof.
  split; [reflexivity|]. split; [reflexivity|]. split; [reflexivity|].
  split; [reflexivity|].
  destruct (WindowSpec.openedStageResult_failure_only_reported
              JSON_parse_literals stage_failed failure
              (Js.str "error") (Window.initialState config)
              eq_refl eq_refl eq_refl eq_refl)
    as (r & url & effs & Hurl & Hrun & _ & Hout & _ & Htext).
  injection Hurl as <-. cbn in Htext. destruct Htext as (rest & ->).
  exists r, rest. split; [exact Hrun|exact Hout].
Defined.

Lemma unrecognized_event_changes_nothing_witness :
  Window.unrecognized selection_changed = true
  /\ exists r effs,
       Window._handleCustomEvent JSON_parse_literals selection_changed
         (Window.initialState config)
       = (r, Window.initialState config, effs)
       /\ Window.outbound effs = [].
Proof.
  split; [reflexivity|].
  destruct (WindowSpec.unrecognized_event_changes_nothing
              JSON_parse_literals selection_changed
              (Window.initialState config) eq_refl)
    as (r & effs & Hrun & _ & Hout & _).
  exists r, effs. split; [exact Hrun|exact Hout].
Defined.

Lemma proof_of_life_poll_witness :
  Window.isKitReady (Window.app window) = false
  /\ Window.timers window = []
  /\ Window.has_event_type "loadingStateResponse" response = true
  /\ exists m1 m2 m3,
       Window.run config JSON_parse_literals
         (Window.onStarted :: repeat (Window.timeout 0) 2) window = Some m1
       /\ Window.sent (Window.trace m1)
          = [(0, Window.loadingStateQuery_message);
             (3000, Window.loadingStateQuery_message);
             (6000, Window.loadingStateQuery_message)]
       /\ Window.timers m1 = [(9000, Window.cb_pollForKitReady)]
       /\ Window.step config JSON_parse_literals
            (Window.handleCustomEvent response) m1 = Some m2
       /\ Window.step config JSON_parse_literals (Window.timeout 0) m2
          = Some m3
       /\ Window.timers m3 = []
       /\ Window.trace m3 = Window.trace m2.
Proof.
  split; [reflexivity|]. split; [reflexivity|]. split; [reflexivity|].
  destruct (WindowSpec.proof_of_life_poll config JSON_parse_literals
              window 2 response eq_refl eq_refl eq_refl)
    as (m1 & m2 & m3 & Hrun & _ & S1 & T1 & H2 & _ & _ & H3 & _ & T3 & R3 & _).
  exists m1, m2, m3.
  split; [exact Hrun|]. split; [exact S1|]. split; [exact T1|].
  split; [exact H2|]. split; [exact H3|]. split; [exact T3|exact R3].
Defined.

(** **** Controller *)


Lemma resetStream_resets_and_releases_witness :
  Controller.sessionId (Controller.app streaming) <> ""
  /\ Controller.fits (Controller.app streaming)
       (Controller.session_destroyed ready refused)
  /\ exists m' before,
       Controller.run config toLocaleTimeString Number_toString
         (Controller.teardown 0 (Controller.session_destroyed ready refused))
         streaming = Some m'
       /\ Controller.app m' = Controller.initialState config
       /\ Controller.trace m'
          = map (pair 60000) (before ++ [Controller.AppStreamer_terminate])
       /\ In (Controller.alert "Session is not active") before.
Proof.
  assert (Hheld : Controller.sessionId (Controller.app streaming) <> "")
    by discriminate.
  assert (Hfits : Controller.fits (Controller.app streaming)
                    (Controller.session_destroyed ready refused))
    by (split; [discriminate|reflexivity]).
  split; [exact Hheld|]. split; [exact Hfits|].
  destruct (ControllerSpec.resetStream_resets_and_releases config
              toLocaleTimeString Number_toString streaming
              (Controller.session_destroyed ready refused) Hheld Hfits)
    as (m' & before & Hrun & A & _ & T & _ & _ & Halert).
  exists m', before.
  split; [exact Hrun|]. split; [exact A|]. split; [exact T|].
  exact (Halert ready "Session is not active" eq_refl).
Defined.

Lemma setupStream_once_with_resolved_routes_witness :
  Controller.pending controller = []
  /\ Controller.routes session
     = [("10.0.0.7", [media_route; signaling_route])]
  /\ find (Controller.has_description "signaling")
       [media_route; signaling_route] = Some signaling_route
  /\ find (Controller.has_description "media")
       [media_route; signaling_route] = Some media_route
  /\ Controller.status accepted = 202
  /\ Forall (fun r => Controller.status r <> 200) [accepted; accepted]
  /\ exists m2,
       Controller.run config toLocaleTimeString Number_toString
         (Controller.startStream "usd-viewer" "106.1.0" "default"
            :: Controller.settle 0 (Controller.session_reply (Normal accepted))
            :: Controller.retries [accepted; accepted]
            ++ [Controller.settle 0
                  (Controller.session_reply (Normal ready))])
         controller = Some m2
       /\ Controller.signalingserver (Controller.app m2) = "10.0.0.7"
       /\ Controller.signalingport (Controller.app m2) = 31001
       /\ Controller.mediaserver (Controller.app m2) = "10.0.0.7"
       /\ Controller.mediaport (Controller.app m2) = 31000
       /\ Controller.currentForm (Controller.app m2) = Forms.Stream
       /\ Controller.count Controller.is_setupStream (Controller.trace m2)
          = 1%nat.
Proof.
  assert (Hall : Forall (fun r => Controller.status r <> 200)
                   [accepted; accepted])
    by (repeat constructor; discriminate).
  split; [reflexivity|]. split; [reflexivity|]. split; [reflexivity|].
  split; [reflexivity|]. split; [reflexivity|]. split; [exact Hall|].
  pose proof (ControllerSpec.setupStream_once_with_resolved_routes config
                toLocaleTimeString Number_toString
                    controller "usd-viewer" "106.1.0"
                "default" session "10.0.0.7" [media_route; signaling_route]
                [] signaling_route media_route accepted [accepted; accepted]
                eq_refl eq_refl eq_refl eq_refl eq_refl Hall) as H.
  cbv zeta in H.
  destruct H as (_ & _ & m2 & Hrun & Hattached & _ & Hcount).
  destruct Hattached as (A1 & A2 & A3 & A4 & _ & A6 & _).
  exists m2.
  split; [exact Hrun|]. split; [exact A1|]. split; [exact A2|].
  split; [exact A3|]. split; [exact A4|]. split; [exact A6|exact Hcount].
Defined.

Lemma setupStream_missing_route_aborts_witness :
  Controller.routes session_without_signaling
  = [("10.0.0.8", [media_route])]
  /\ (forall route,
        In route [media_route] ->
        Controller.description route <> "signaling")
  /\ Controller.setupStream session_without_signaling 0
       (@Controller.initialState Application config)
     = (Normal tt, Controller.initialState config,
        [Controller.console_info_item "createdStream"
           session_without_signaling;
         Controller.console_error "Signaling or media data is missing"]).
Proof.
  assert (Hlack : forall route,
             In route [media_route] ->
             Controller.description route <> "signaling").
  { intros route [<-|[]]. discriminate. }
  split; [reflexivity|]. split; [exact Hlack|].
  apply (proj1 (ControllerSpec.setupStream_missing_route_aborts
                  controller session_without_signaling "10.0.0.8"
                  [media_route] [] eq_refl (or_introl Hlack))).
Defined.

Lemma resetStream_twice_witness :
  Controller.fits (Controller.app streaming)
    (Controller.session_destroyed ready refused)
  /\ exists m1 m2,
       Controller.run config toLocaleTimeString Number_toString
         (Controller.teardown 0 (Controller.session_destroyed ready refused))
         streaming = Some m1
       /\ Controller.step config toLocaleTimeString Number_toString
            Controller.onStreamFailed m1 = Some m2
       /\ Controller.count Controller.is_backend_call (Controller.trace m2)
          = Controller.count Controller.is_backend_call (Controller.trace m1)
       /\ Controller.count Controller.is_uncaught (Controller.trace m2)
          = 0%nat.
Proof.
  assert (Hfits : Controller.fits (Controller.app streaming)
                    (Controller.session_destroyed ready refused))
    by (split; [discriminate|reflexivity]).
  split; [exact Hfits|].
  destruct (ControllerSpec.resetStream_twice config
              toLocaleTimeString Number_toString
              streaming (Controller.session_destroyed ready refused) Hfits)
    as (_ & m1 & m2 & Hrun & Hstep & _ & Hcalls & Hun & _).
  exists m1, m2.
  split; [exact Hrun|]. split; [exact Hstep|]. split; [exact Hcalls|exact Hun].
Defined.

(** **** Window, continued *)

Lemma kitReady_is_kept_witness :
  Window.run config JSON_parse_literals viewing window_ready
  = Some (window_after viewing window_ready)
  /\ Window.isKitReady (Window.app window_ready) = true
  /\ Window.isKitReady (Window.app (window_after viewing window_ready)) = true
  /\ Window.showStream (Window.app (window_after viewing window_ready)) = true.
Proof.
  assert (Hrun : Window.run config JSON_parse_literals viewing window_ready
                 = Some (window_after viewing window_ready))
    by reflexivity.
  split; [exact Hrun|]. split; [reflexivity|].
  destruct (WindowSpec.kitReady_is_kept config JSON_parse_literals viewing
              window_ready _ Hrun) as (K & S & _).
  split; [exact (K eq_refl)|]. rewrite S. reflexivity.
Defined.

Lemma only_loadingStateQuery_is_sent_witness :
  Window.run config JSON_parse_literals viewing window_ready
  = Some (window_after viewing window_ready)
  /\ exists new,
       Window.sent (Window.trace (window_after viewing window_ready))
       = Window.sent (Window.trace window_ready) ++ new
       /\ Forall (fun p => snd p = Window.loadingStateQuery_message) new.
Proof.
  assert (Hrun : Window.run config JSON_parse_literals viewing window_ready
                 = Some (window_after viewing window_ready))
    by reflexivity.
  split; [exact Hrun|].
  exact (WindowSpec.only_loadingStateQuery_is_sent config JSON_parse_literals
           viewing window_ready _ Hrun).
Defined.

Lemma timers_bounded_by_starts_witness :
  Window.run config JSON_parse_literals viewing window_ready
  = Some (window_after viewing window_ready)
  /\ (length (Window.timers (window_after viewing window_ready)) <= 1 + 1)%nat.
Proof.
  assert (Hrun : Window.run config JSON_parse_literals viewing window_ready
                 = Some (window_after viewing window_ready))
    by reflexivity.
  split; [exact Hrun|].
  exact (WindowSpec.timers_bounded_by_starts config JSON_parse_literals
           viewing window_ready _ Hrun).
Defined.

Lemma openedStageResult_success_queries_witness :
  Window.has_event_type "openedStageResult" stage_opened = true
  /\ Js.strict_eq_str (Js.str "success") "success" = true
  /\ exists r rest,
       Window._handleCustomEvent JSON_parse_literals stage_opened
         (Window.initialState config)
       = (r, Window.initialState config,
          Window.AppStream_sendMessage Window.loadingStateQuery_message
            :: rest)
       /\ forallb Window.is_console rest = true.
Proof.
  split; [reflexivity|]. split; [reflexivity|].
  exact (WindowSpec.openedStageResult_success_queries JSON_parse_literals
           stage_opened _ (Js.str "success") (Window.initialState config)
           eq_refl eq_refl eq_refl eq_refl).
Defined.

Lemma openedStageResult_without_payload_throws_witness :
  Window.has_event_type "openedStageResult" stage_without_payload = true
  /\ Js.prop stage_without_payload "payload" = Normal Js.undefined
  /\ Window._handleCustomEvent JSON_parse_literals stage_without_payload
       (Window.initialState config)
     = (Throw Js.TypeError, Window.initialState config, []).
Proof.
  split; [reflexivity|]. split; [reflexivity|].
  exact (WindowSpec.openedStageResult_without_payload_throws
           JSON_parse_literals stage_without_payload Js.undefined
           (Window.initialState config) eq_refl eq_refl
           (or_introl eq_refl)).
Defined.

Lemma updateProgressActivity_once_witness :
  Window.has_event_type "updateProgressActivity" activity = true
  /\ exists r1 effs1 s' r2 effs2,
       Window._handleCustomEvent JSON_parse_literals activity
         (Window.initialState config) = (r1, s', effs1)
       /\ Window._handleCustomEvent JSON_parse_literals activity s'
          = (r2, s', effs2)
       /\ Window.loadingText s' = "Loading Asset...".
Proof.
  split; [reflexivity|].
  destruct (WindowSpec.updateProgressActivity_once JSON_parse_literals
              activity (Window.initialState config) eq_refl)
    as (r1 & effs1 & s' & r2 & effs2 & H1 & H2 & Htext & _).
  exists r1, effs1, s', r2, effs2.
  split; [exact H1|]. split; [exact H2|exact Htext].
Defined.

Lemma loosely_equal_type_is_a_response_witness :
  Js.truthy response_in_array = true
  /\ Js.prop response_in_array "event_type"
     = Normal (Js.array [Js.str "loadingStateResponse"])
  /\ Js.loose_eq_str (Js.array [Js.str "loadingStateResponse"])
       "loadingStateResponse" = Normal true
  /\ Window.has_event_type "loadingStateResponse" response_in_array = false
  /\ exists r rest,
       Window._handleCustomEvent JSON_parse_literals response_in_array
         (Window.initialState config)
       = (r, Window.set_isKitReady true (Window.initialState config),
          Window.console_info "Kit is ready to load assets"
            :: Window.AppStream_sendMessage Window.loadingStateQuery_message
            :: rest)
       /\ forallb Window.is_console rest = true.
Proof.
  split; [reflexivity|]. split; [reflexivity|]. split; [reflexivity|].
  split; [reflexivity|].
  exact (WindowSpec.loosely_equal_type_is_a_response JSON_parse_literals
           response_in_array _ (Window.initialState config)
           eq_refl eq_refl eq_refl eq_refl).
Defined.

Lemma activity_always_shows_loading_witness :
  Window.run config JSON_parse_literals
    [Window.onStarted; Window.handleCustomEvent response; Window.onLoggedIn "user-7"]
    (Window.boot config)
  = Some (window_after [Window.onLoggedIn "user-7"] window_ready)
  /\ Window.has_event_type "updateProgressActivity" activity = true
  /\ exists m',
       Window.step config JSON_parse_literals
         (Window.handleCustomEvent activity)
         (window_after [Window.onLoggedIn "user-7"] window_ready) = Some m'
       /\ Window.loadingText (Window.app m') = "Loading Asset..."
       /\ Window.isLoading (Window.app m') = true.
Proof.
  assert (Hrun : Window.run config JSON_parse_literals
                   [Window.onStarted; Window.handleCustomEvent response;
                    Window.onLoggedIn "user-7"] (Window.boot config)
                 = Some (window_after [Window.onLoggedIn "user-7"] window_ready))
    by reflexivity.
  split; [exact Hrun|]. split; [reflexivity|].
  exact (WindowSpec.activity_always_shows_loading config JSON_parse_literals
           _ activity _ Hrun eq_refl).
Defined.

Lemma every_start_adds_a_poll_witness :
  Window.isKitReady (Window.app window) = false
  /\ exists m',
       Window.run config JSON_parse_literals (repeat Window.onStarted 3) window
       = Some m'
       /\ length (Window.timers m') = 3%nat
       /\ length (Window.sent (Window.trace m')) = 3%nat.
Proof.
  split; [reflexivity|].
  destruct (WindowSpec.every_start_adds_a_poll config JSON_parse_literals 3
              window eq_refl) as (m' & Hrun & _ & T & S).
  exists m'. split; [exact Hrun|]. split; [exact T|exact S].
Defined.

(** **** Controller, continued *)

Lemma startStream_error_status_resets_witness :
  Controller.pending controller = []
  /\ 400 < Controller.status server_error
  /\ exists m',
       Controller.run config toLocaleTimeString Number_toString
         [Controller.startStream "usd-viewer" "106.1.0" "default";
          Controller.settle 0 (Controller.session_reply (Normal server_error))]
         controller = Some m'
       /\ Controller.app m' = Controller.initialState config
       /\ Controller.count Controller.is_alert (Controller.trace m') = 1%nat
       /\ Controller.count Controller.is_setupStream (Controller.trace m')
          = 0%nat.
Proof.
  assert (Hstatus : 400 < Controller.status server_error) by reflexivity.
  split; [reflexivity|]. split; [exact Hstatus|].
  destruct (ControllerSpec.startStream_error_status_resets config
              toLocaleTimeString Number_toString
                  controller "usd-viewer" "106.1.0" "default"
              server_error eq_refl Hstatus)
    as (m' & Hrun & A & _ & L & S & _).
  exists m'. split; [exact Hrun|]. split; [exact A|]. split; [exact L|exact S].
Defined.

Lemma rejected_creation_is_not_reported_witness :
  Controller.pending controller = []
  /\ exists m',
       Controller.run config toLocaleTimeString Number_toString
         [Controller.startStream "usd-viewer" "106.1.0" "default";
          Controller.settle 0 (Controller.session_reply (Throw network_error))]
         controller = Some m'
       /\ Controller.currentForm (Controller.app m') = Forms.IDLE
       /\ Controller.connectionText (Controller.app m')
          = "Attempting to create streaming session..."
       /\ Controller.count Controller.is_alert (Controller.trace m') = 0%nat.
Proof.
  split; [reflexivity|].
  destruct (ControllerSpec.rejected_creation_is_not_reported config
              toLocaleTimeString Number_toString
                  controller "usd-viewer" "106.1.0" "default"
              network_error eq_refl)
    as (m' & Hrun & A & _ & L & _).
  exists m'. split; [exact Hrun|]. rewrite A.
  split; [reflexivity|]. split; [reflexivity|exact L].
Defined.

Lemma any_other_status_is_ready_witness :
  Controller.pending controller = []
  /\ Controller.status created <= 400
  /\ Controller.status created <> 202
  /\ Controller.routes (Controller.data created)
     = [("10.0.0.7", [media_route; signaling_route])]
  /\ exists m',
       Controller.run config toLocaleTimeString Number_toString
         [Controller.startStream "usd-viewer" "106.1.0" "default";
          Controller.settle 0 (Controller.session_reply (Normal created))]
         controller = Some m'
       /\ Controller.currentForm (Controller.app m') = Forms.Stream
       /\ Controller.mediaport (Controller.app m') = 31000
       /\ Controller.count Controller.is_alert (Controller.trace m') = 0%nat.
Proof.
  assert (Hle : Controller.status created <= 400) by discriminate.
  assert (Hne : Controller.status created <> 202) by discriminate.
  split; [reflexivity|]. split; [exact Hle|]. split; [exact Hne|].
  split; [reflexivity|].
  destruct (ControllerSpec.any_other_status_is_ready config
              toLocaleTimeString Number_toString
                  controller "usd-viewer" "106.1.0" "default"
              created "10.0.0.7" [media_route; signaling_route] []
              signaling_route media_route eq_refl Hle Hne eq_refl eq_refl
              eq_refl)
    as (m' & Hrun & A & _ & L & _).
  exists m'. split; [exact Hrun|]. rewrite A.
  split; [reflexivity|]. split; [reflexivity|exact L].
Defined.

Lemma session_without_hosts_throws_witness :
  Controller.pending controller = []
  /\ Controller.status ready_without_hosts <= 400
  /\ Controller.status ready_without_hosts <> 202
  /\ Controller.routes (Controller.data ready_without_hosts) = []
  /\ exists m',
       Controller.run config toLocaleTimeString Number_toString
         [Controller.startStream "usd-viewer" "106.1.0" "default";
          Controller.settle 0
            (Controller.session_reply (Normal ready_without_hosts))]
         controller = Some m'
       /\ Controller.sessionId (Controller.app m') = "session-1"
       /\ Controller.streamStatus (Controller.app m')
          = StreamStatus.INITIALIZING
       /\ Controller.count Controller.is_uncaught (Controller.trace m')
          = 1%nat.
Proof.
  assert (Hle : Controller.status ready_without_hosts <= 400) by discriminate.
  assert (Hne : Controller.status ready_without_hosts <> 202) by discriminate.
  split; [reflexivity|]. split; [exact Hle|]. split; [exact Hne|].
  split; [reflexivity|].
  destruct (ControllerSpec.session_without_hosts_throws config
              toLocaleTimeString Number_toString
                  controller "usd-viewer" "106.1.0" "default"
              ready_without_hosts eq_refl Hle Hne eq_refl)
    as (_ & m' & Hrun & A & _ & _ & U).
  exists m'. split; [exact Hrun|]. rewrite A.
  split; [reflexivity|]. split; [reflexivity|exact U].
Defined.

Lemma polling_asking : Controller.polling "session-1" asking.
Proof. eexists. reflexivity. Defined.

Lemma rejected_poll_ends_the_chain_witness :
  Controller.polling "session-1" asking
  /\ exists m',
       Controller.step config toLocaleTimeString Number_toString
         (Controller.settle 0 (Controller.session_reply (Throw network_error)))
         asking = Some m'
       /\ Controller.pending m' = []
       /\ Controller.trace m'
          = [(12000,
              Controller.console_error_with "Error polling session info:"
                network_error)].
Proof.
  split; [exact polling_asking|].
  destruct (ControllerSpec.rejected_poll_ends_the_chain config
              toLocaleTimeString Number_toString
                  asking "session-1" network_error
              polling_asking)
    as (m' & Hstep & _ & P & T).
  exists m'. split; [exact Hstep|]. split; [exact P|exact T].
Defined.

Lemma unresolved_poll_ends_the_chain_witness :
  Controller.polling "session-1" asking
  /\ Controller.status ready_without_signaling = 200
  /\ find (Controller.has_description "signaling") [media_route] = None
  /\ exists m',
       Controller.step config toLocaleTimeString Number_toString
         (Controller.settle 0
            (Controller.session_reply (Normal ready_without_signaling)))
         asking = Some m'
       /\ Controller.app m' = Controller.app asking
       /\ Controller.pending m' = [].
Proof.
  split; [exact polling_asking|]. split; [reflexivity|].
  split; [reflexivity|].
  destruct (ControllerSpec.unresolved_poll_ends_the_chain config
              toLocaleTimeString Number_toString
                  asking "session-1" ready_without_signaling
              polling_asking eq_refl
              (or_intror
                 (ex_intro _ "10.0.0.8"
                    (ex_intro _ [media_route]
                       (ex_intro _ []
                          (conj eq_refl (or_introl eq_refl)))))))
    as (m' & Hstep & A & P & _).
  exists m'. split; [exact Hstep|]. split; [exact A|exact P].
Defined.

Lemma polling_goes_on_while_not_ready_witness :
  Controller.pending controller = []
  /\ Controller.status accepted = 202
  /\ Forall (fun r => Controller.status r <> 200)
       [accepted; accepted; accepted]
  /\ exists m',
       Controller.run config toLocaleTimeString Number_toString
         (Controller.startStream "usd-viewer" "106.1.0" "default"
            :: Controller.settle 0 (Controller.session_reply (Normal accepted))
            :: Controller.retries [accepted; accepted; accepted])
         controller = Some m'
       /\ Controller.polling "session-1" m'
       /\ Controller.now m' = 30000
       /\ Controller.count Controller.is_alert (Controller.trace m') = 0%nat.
Proof.
  assert (Hall : Forall (fun r => Controller.status r <> 200)
                   [accepted; accepted; accepted])
    by (repeat constructor; discriminate).
  split; [reflexivity|]. split; [reflexivity|]. split; [exact Hall|].
  destruct (ControllerSpec.polling_goes_on_while_not_ready config
              toLocaleTimeString Number_toString
                  controller "usd-viewer" "106.1.0" "default"
              accepted [accepted; accepted; accepted] eq_refl eq_refl Hall)
    as (m' & Hrun & P & _ & N & L & _).
  exists m'. split; [exact Hrun|]. split; [exact P|].
  split; [exact N|exact L].
Defined.

Lemma rejected_teardown_releases_nothing_witness :
  Controller.sessionId (Controller.app streaming) <> ""
  /\ Controller.status ready = 200
  /\ exists m2,
       Controller.run config toLocaleTimeString Number_toString
         [Controller.onStreamFailed;
          Controller.settle 0 (Controller.session_reply (Normal ready));
          Controller.settle 0 (Controller.destroy_reply (Throw network_error))]
         streaming = Some m2
       /\ Controller.app m2 = Controller.app streaming
       /\ Controller.count Controller.is_terminate (Controller.trace m2)
          = 0%nat.
Proof.
  assert (Hheld : Controller.sessionId (Controller.app streaming) <> "")
    by discriminate.
  split; [exact Hheld|]. split; [reflexivity|].
  destruct (ControllerSpec.rejected_teardown_releases_nothing config
              toLocaleTimeString Number_toString
                  streaming ready network_error Hheld eq_refl)
    as (_ & m2 & Hrun & A & _ & T & _).
  exists m2. split; [exact Hrun|]. split; [exact A|exact T].
Defined.

Lemma overlapping_teardowns_both_destroy_witness :
  Controller.pending streaming = []
  /\ Controller.sessionId (Controller.app streaming) <> ""
  /\ Controller.status ready = 200
  /\ exists m',
       Controller.run config toLocaleTimeString Number_toString
         [Controller.onStreamFailed;
          Controller.onStreamFailed;
          Controller.settle 1 (Controller.session_reply (Normal ready));
          Controller.settle 1 (Controller.destroy_reply (Normal destroyed));
          Controller.settle 0 (Controller.session_reply (Normal ready));
          Controller.settle 0 (Controller.destroy_reply (Normal refused))]
         streaming = Some m'
       /\ Controller.count Controller.is_destroy (Controller.trace m') = 2%nat
       /\ Controller.count Controller.is_terminate (Controller.trace m')
          = 2%nat.
Proof.
  assert (Hheld : Controller.sessionId (Controller.app streaming) <> "")
    by discriminate.
  split; [reflexivity|]. split; [exact Hheld|]. split; [reflexivity|].
  destruct (ControllerSpec.overlapping_teardowns_both_destroy config
              toLocaleTimeString Number_toString
                  streaming ready ready refused destroyed
              eq_refl Hheld eq_refl eq_refl)
    as (m' & Hrun & _ & _ & _ & D & T).
  exists m'. split; [exact Hrun|]. split; [exact D|exact T].
Defined.

Lemma cancelled_creation_still_attaches_witness :
  Controller.pending controller = []
  /\ Controller.sessionId (Controller.app controller) = ""
  /\ Controller.status ready = 200
  /\ exists m1 m2,
       Controller.run config toLocaleTimeString Number_toString
         [Controller.startStream "usd-viewer" "106.1.0" "default";
          Controller.onStreamFailed] controller = Some m1
       /\ Controller.app m1 = Controller.initialState config
       /\ Controller.step config toLocaleTimeString Number_toString
            (Controller.settle 0 (Controller.session_reply (Normal ready)))
            m1 = Some m2
       /\ Controller.currentForm (Controller.app m2) = Forms.Stream
       /\ Controller.sessionId (Controller.app m2) = "session-1"
       /\ Controller.count Controller.is_destroy (Controller.trace m2)
          = 0%nat.
Proof.
  split; [reflexivity|]. split; [reflexivity|]. split; [reflexivity|].
  destruct (ControllerSpec.cancelled_creation_still_attaches config
              toLocaleTimeString Number_toString
                  controller "usd-viewer" "106.1.0" "default"
              ready "10.0.0.7" [media_route; signaling_route] []
              signaling_route media_route eq_refl eq_refl eq_refl eq_refl
              eq_refl eq_refl)
    as (m1 & m2 & Hrun & A1 & _ & Hstep & A2 & _ & D & _).
  exists m1, m2. split; [exact Hrun|]. split; [exact A1|].
  split; [exact Hstep|]. rewrite A2.
  split; [reflexivity|]. split; [reflexivity|exact D].
Defined.

Lemma stale_poll_attaches_after_teardown_witness :
  Controller.pending waiting
  = [Controller.timer 10000 (Controller.cb_pollForSessionReady "session-1")]
  /\ Controller.fits (Controller.app waiting)
       (Controller.session_unknown accepted)
  /\ Controller.status ready = 200
  /\ exists m1 m2,
       Controller.run config toLocaleTimeString Number_toString
         (Controller.teardown 1 (Controller.session_unknown accepted))
         waiting = Some m1
       /\ Controller.app m1 = Controller.initialState config
       /\ Controller.run config toLocaleTimeString Number_toString
            [Controller.timeout 0;
             Controller.settle 0 (Controller.session_reply (Normal ready))]
            m1 = Some m2
       /\ Controller.currentForm (Controller.app m2) = Forms.Stream
       /\ Controller.sessionId (Controller.app m2) = "session-1".
Proof.
  assert (Hfits : Controller.fits (Controller.app waiting)
                    (Controller.session_unknown accepted))
    by (split; discriminate).
  split; [reflexivity|]. split; [exact Hfits|]. split; [reflexivity|].
  destruct (ControllerSpec.stale_poll_attaches_after_teardown config
              toLocaleTimeString Number_toString waiting
              (Controller.session_unknown accepted) 10000 "session-1" ready
              "10.0.0.7" [media_route; signaling_route] [] signaling_route
              media_route eq_refl Hfits eq_refl eq_refl eq_refl eq_refl)
    as (m1 & m2 & H1 & A1 & H2 & A2 & _).
  exists m1, m2. split; [exact H1|]. split; [exact A1|].
  split; [exact H2|]. rewrite A2. split; reflexivity.
Defined.

Lemma configuration_is_kept_witness :
  Controller.run config toLocaleTimeString Number_toString
      cancelled_while_polling
    (Controller.boot config)
  = Some (controller_after cancelled_while_polling controller)
  /\ Controller.as_configured config
       (Controller.app (controller_after cancelled_while_polling controller))
  /\ Controller.calls_configured config
       (map snd
          (Controller.trace
             (controller_after cancelled_while_polling controller))).
Proof.
  assert (Hrun : Controller.run config toLocaleTimeString Number_toString
                   cancelled_while_polling (Controller.boot config)
                 = Some (controller_after cancelled_while_polling controller))
    by (vm_compute; reflexivity).
  split; [exact Hrun|].
  exact (ControllerSpec.configuration_is_kept config
              toLocaleTimeString Number_toString
           cancelled_while_polling _ Hrun).
Defined.

End Checked.
